(** * version.py: a shallow embedding of the [Repository] class

    The Python class keeps all of its state on disk, under the directory
    [.gitclone] of the repository path, apart from one in-memory field
    ([current_branch]).  The embedding threads an explicit [World] (the
    disk, the system clock and what has been printed) through a small
    state-and-exception monad, so that every method reads like the
    Python it embeds.

    Conventions of the model:
    - a Python [str] is a [string] whose characters are code points
      below 256; [bytes] is [list byte];
    - a text file is the [str] that [read()] returns for it.  Text mode
      reads a carriage return as a line feed, so such a [str] holds no
      carriage return, and a string written with one reads back changed
      ([PyStr.universal_newlines]).  [checkout] is the one method that
      writes a string of its caller into a text file: what it stores in
      HEAD is what reads back.  [branch] and [commit] write a stripped
      read and a digest;
    - a JSON file is the value [json.load] returns for it (the index is a
      list of entries, a commit object is a [commit_data]); a blob is
      taken not to parse as a commit record;
    - the directories [refs/heads] and [objects] are the maps [heads] and
      [objects], from the name of a file to what it holds.  The methods
      join a name to the directory with [os.path.join] and open the path
      they get.  For a plain file name ([plain_name]) that path is the
      file of this name in the directory: the map tells whether it is
      there and what is in it.  Any other name (the empty string, [.],
      [..], a name with a ['/'] or a NUL in it, a name longer than a file
      name can be) gives the path of something else, the directory or a
      file elsewhere, about which the map says nothing.  So a theorem
      about a name that is written, or that is looked up and may be
      missing, takes the name to be plain;
    - likewise [worktree] holds the files outside [.gitclone]: a theorem
      about the files given to [add] takes them to be paths that stay in
      the working tree ([tame_path]);
    - every path names a regular file or a directory that the process may
      read and write, through no link, and the disk is not full;
    - an instant (a change time, a timestamp) is an integer reading of the
      clock; the method that writes a file stamps it with the reading of
      the moment;
    - the functions of [hashlib], [fnmatch] and [os.path] are the methods
      of the class [PyLib]; the theorems hold for every instance, and the
      instance [posix] (SHA-256 and POSIX paths, written out below) runs
      the worked examples;
    - a loop that may not end takes fuel, one unit per pass; [OutOfFuel]
      is the outcome of a call whose loop was still going.
    [clone] (a call of [shutil.copytree]) and [main] are not embedded. *)

From Stdlib Require Import ZArith Lia List Ascii String.
From Stdlib.Strings Require Import Byte.
From stdpp Require Import base option list gmap strings.
Import ListNotations.

Local Open Scope string_scope.
Local Open Scope Z_scope.

(* ===================================================================== *)
(** ** Python strings *)
(* ===================================================================== *)

Module PyStr.

(** [str.isspace] on one character, for code points below 256. *)
Definition isspace (c : ascii) : bool :=
  let n := N_of_ascii c in
  ((9 <=? n) && (n <=? 13) || (28 <=? n) && (n <=? 32)
   || (n =? 133) || (n =? 160))%N.

(** [s.lstrip()] *)
Fixpoint lstrip (s : string) : string :=
  match s with
  | String c r => if isspace c then lstrip r else s
  | EmptyString => EmptyString
  end.

(** [s.rstrip()] *)
Fixpoint rstrip (s : string) : string :=
  match s with
  | String c r =>
      match rstrip r with
      | EmptyString => if isspace c then EmptyString else String c EmptyString
      | r' => String c r'
      end
  | EmptyString => EmptyString
  end.

(** [s.strip()] *)
Definition strip (s : string) : string := rstrip (lstrip s).

(** [s.split(sep)] for a one-character separator: never the empty list. *)
Fixpoint split (sep : ascii) (s : string) : list string :=
  match s with
  | EmptyString => [EmptyString]
  | String c r =>
      if Ascii.eqb c sep then EmptyString :: split sep r
      else match split sep r with
           | w :: ws => String c w :: ws
           | [] => [String c EmptyString]
           end
  end.

(** [l[-1]] on the result of a split. *)
Definition last_item (l : list string) : string := List.last l EmptyString.

(** What [read()] returns, in text mode, for a file that holds the
    characters [s]: a carriage return, with the line feed after it if
    there is one, reads as one line feed. *)
Fixpoint universal_newlines (s : string) : string :=
  match s with
  | EmptyString => EmptyString
  | String c r =>
      if Ascii.eqb c "013" then
        match r with
        | String c' r' =>
            if Ascii.eqb c' "010" then String "010" (universal_newlines r')
            else String "010" (universal_newlines r)
        | EmptyString => String "010" EmptyString
        end
      else String c (universal_newlines r)
  end.

(** [s.encode()], UTF-8, of code points below 256. *)
Fixpoint encode (s : string) : list byte :=
  match s with
  | EmptyString => []
  | String c r =>
      let n := N_of_ascii c in
      if (n <? 128)%N then byte_of_ascii c :: encode r
      else byte_of_ascii (ascii_of_N (192 + n / 64))
           :: byte_of_ascii (ascii_of_N (128 + n mod 64)) :: encode r
  end.

(** [bool(s)]: a string is true when it is not empty. *)
Definition truthy (s : string) : bool :=
  match s with EmptyString => false | _ => true end.

(** [bool(o)] for an [Optional[str]]: [None] and [''] are false. *)
Definition truthy_opt (o : option string) : bool :=
  match o with Some s => truthy s | None => false end.

End PyStr.

(* ===================================================================== *)
(** ** hashlib.sha256 (FIPS 180-4), over [Z] with the wrap-around of
       32-bit words written out *)
(* ===================================================================== *)

Module SHA256.

Definition w32 (x : Z) : Z := x mod 2 ^ 32.
Definition add32 (x y : Z) : Z := w32 (x + y).
Definition rotr (n x : Z) : Z :=
  Z.lor (Z.shiftr x n) (w32 (Z.shiftl x (32 - n))).
Definition not32 (x : Z) : Z := Z.lxor x 0xffffffff.

Definition Ch (e f g : Z) : Z := Z.lxor (Z.land e f) (Z.land (not32 e) g).
Definition Maj (a b c : Z) : Z :=
  Z.lxor (Z.lxor (Z.land a b) (Z.land a c)) (Z.land b c).
Definition Sigma0 (x : Z) : Z := Z.lxor (Z.lxor (rotr 2 x) (rotr 13 x)) (rotr 22 x).
Definition Sigma1 (x : Z) : Z := Z.lxor (Z.lxor (rotr 6 x) (rotr 11 x)) (rotr 25 x).
Definition sigma0 (x : Z) : Z := Z.lxor (Z.lxor (rotr 7 x) (rotr 18 x)) (Z.shiftr x 3).
Definition sigma1 (x : Z) : Z := Z.lxor (Z.lxor (rotr 17 x) (rotr 19 x)) (Z.shiftr x 10).

(** The first sixty-four primes: 2, 3, 5, ..., 311. *)
Definition is_prime (n : Z) : bool :=
  forallb (fun d => negb (n mod Z.of_nat d =? 0)) (seq 2 (Z.to_nat n - 2)).

Definition primes : list Z :=
  Eval vm_compute in List.filter is_prime (List.map Z.of_nat (seq 2 310)).

(** The integer cube root of [n], for [n] below [2 ^ (3 * k)]: one bit of
    the root per step, from bit [k - 1] down. *)
Fixpoint cube_root (k : nat) (n r : Z) : Z :=
  match k with
  | O => r
  | S k' =>
      let r' := r + 2 ^ Z.of_nat k' in
      cube_root k' n (if r' * r' * r' <=? n then r' else r)
  end.

(** The round constants: the first 32 bits of the fractional parts of the
    cube roots of the primes. *)
Definition K : list Z :=
  Eval vm_compute in
    List.map (fun p => w32 (cube_root 40 (p * 2 ^ 96) 0)) primes.

(** The big-endian bytes of [x], [n] of them. *)
Fixpoint be_bytes (n : nat) (x : Z) : list Z :=
  match n with
  | O => []
  | S n' => be_bytes n' (Z.shiftr x 8) ++ [Z.land x 0xff]
  end.

(** Padding: the byte 0x80, zeros up to 56 modulo 64, the bit length. *)
Definition pad (msg : list Z) : list Z :=
  let len := Z.of_nat (length msg) in
  let zeros := Z.to_nat ((55 - len) mod 64) in
  msg ++ [0x80] ++ repeat 0 zeros ++ be_bytes 8 (8 * len).

(** Big-endian 32-bit words of a byte sequence. *)
Fixpoint words (bs : list Z) : list Z :=
  match bs with
  | a :: b :: c :: d :: r =>
      Z.lor (Z.shiftl a 24) (Z.lor (Z.shiftl b 16) (Z.lor (Z.shiftl c 8) d))
      :: words r
  | _ => []
  end.

(** The message schedule, most recent word first: [rev] of it is W_0..W_63. *)
Fixpoint schedule (n : nat) (ws : list Z) : list Z :=
  match n with
  | O => ws
  | S n' =>
      let w := add32 (add32 (sigma1 (nth 1 ws 0)) (nth 6 ws 0))
                     (add32 (sigma0 (nth 14 ws 0)) (nth 15 ws 0)) in
      schedule n' (w :: ws)
  end.

Record regs := Regs { ra : Z; rb : Z; rc : Z; rd : Z; re : Z; rf : Z; rg : Z; rh : Z }.

(** The initial hash value: the first 32 bits of the fractional parts of
    the square roots of the first eight primes. *)
Definition H0 : regs :=
  Eval vm_compute in
    let h := fun i => w32 (Z.sqrt (nth i primes 0 * 2 ^ 64)) in
    Regs (h 0%nat) (h 1%nat) (h 2%nat) (h 3%nat) (h 4%nat) (h 5%nat) (h 6%nat) (h 7%nat).

Definition round (s : regs) (kw : Z * Z) : regs :=
  let t1 := add32 (add32 (add32 (rh s) (Sigma1 (re s)))
                         (add32 (Ch (re s) (rf s) (rg s)) (fst kw))) (snd kw) in
  let t2 := add32 (Sigma0 (ra s)) (Maj (ra s) (rb s) (rc s)) in
  Regs (add32 t1 t2) (ra s) (rb s) (rc s) (add32 (rd s) t1) (re s) (rf s) (rg s).

Definition compress (h : regs) (block : list Z) : regs :=
  let w := rev (schedule 48 (rev block)) in
  let s := fold_left round (combine K w) h in
  Regs (add32 (ra h) (ra s)) (add32 (rb h) (rb s)) (add32 (rc h) (rc s))
       (add32 (rd h) (rd s)) (add32 (re h) (re s)) (add32 (rf h) (rf s))
       (add32 (rg h) (rg s)) (add32 (rh h) (rh s)).

(** One call per 16-word block; [n] bounds the number of blocks. *)
Fixpoint blocks (n : nat) (h : regs) (ws : list Z) : regs :=
  match n, ws with
  | S n', _ :: _ => blocks n' (compress h (firstn 16 ws)) (skipn 16 ws)
  | _, _ => h
  end.

Definition digest (msg : list byte) : list Z :=
  let ws := words (pad (map (fun b => Z.of_N (Byte.to_N b)) msg)) in
  let h := blocks (length ws) H0 ws in
  [ra h; rb h; rc h; rd h; re h; rf h; rg h; rh h].

Definition hexdigit (x : Z) : ascii :=
  if x <? 10 then ascii_of_N (Z.to_N (48 + x)) else ascii_of_N (Z.to_N (87 + x)).

(** The [n] low hexadecimal digits of [x], most significant first. *)
Fixpoint hex (n : nat) (x : Z) (k : string) : string :=
  match n with
  | O => k
  | S n' => hex n' (Z.shiftr x 4) (String (hexdigit (Z.land x 15)) k)
  end.

(** [hashlib.sha256(msg).hexdigest()] *)
Definition hexdigest (msg : list byte) : string :=
  fold_right (fun w k => hex 8 w k) EmptyString (digest msg).

End SHA256.


(* ===================================================================== *)
(** ** os.path (posixpath) and fnmatch *)
(* ===================================================================== *)

Module PosixPath.

Definition slash : ascii := "/"%char.

Definition startswith_slash (p : string) : bool :=
  match p with String c _ => Ascii.eqb c slash | EmptyString => false end.

Fixpoint endswith_slash (p : string) : bool :=
  match p with
  | EmptyString => false
  | String c EmptyString => Ascii.eqb c slash
  | String _ r => endswith_slash r
  end.

(** [os.path.join(a, b)] *)
Definition join (a b : string) : string :=
  if startswith_slash b then b
  else if PyStr.truthy a && negb (endswith_slash a) then a ++ "/" ++ b
  else a ++ b.

(** ['/'.join(comps)] *)
Fixpoint join_comps (comps : list string) : string :=
  match comps with
  | [] => ""
  | [c] => c
  | c :: r => c ++ "/" ++ join_comps r
  end.

(** The loop of [normpath]; [new_comps] is kept in reverse. *)
Fixpoint norm_comps (initial_slashes : bool) (comps new_comps : list string)
  : list string :=
  match comps with
  | [] => rev new_comps
  | comp :: r =>
      if String.eqb comp "" || String.eqb comp "." then
        norm_comps initial_slashes r new_comps
      else if negb (String.eqb comp "..") then
        norm_comps initial_slashes r (comp :: new_comps)
      else
        match new_comps with
        | [] => if initial_slashes then norm_comps initial_slashes r []
                else norm_comps initial_slashes r [comp]
        | top :: below =>
            if String.eqb top ".." then norm_comps initial_slashes r (comp :: new_comps)
            else norm_comps initial_slashes r below
        end
  end.

(** The number of leading slashes [normpath] keeps: 0, 1 or 2. *)
Definition initial_slashes (p : string) : nat :=
  match p with
  | String a (String b (String c _)) =>
      if Ascii.eqb a slash then
        if Ascii.eqb b slash && negb (Ascii.eqb c slash) then 2%nat else 1%nat
      else 0%nat
  | String a (String b EmptyString) =>
      if Ascii.eqb a slash then if Ascii.eqb b slash then 2%nat else 1%nat else 0%nat
  | String a EmptyString => if Ascii.eqb a slash then 1%nat else 0%nat
  | EmptyString => 0%nat
  end.

(** [os.path.normpath(p)] *)
Definition normpath (p : string) : string :=
  if negb (PyStr.truthy p) then "."
  else
    let n := initial_slashes p in
    let body := join_comps (norm_comps (negb (Nat.eqb n 0)) (PyStr.split slash p) []) in
    let q := match n with
             | O => body
             | S O => "/" ++ body
             | _ => "//" ++ body
             end in
    if PyStr.truthy q then q else ".".

(** [os.path.abspath(p)] in a process whose working directory is [cwd]. *)
Definition abspath (cwd p : string) : string :=
  normpath (if startswith_slash p then p else join cwd p).

(** [os.path.commonprefix] on two lists of components: what follows it. *)
Fixpoint drop_common (a b : list string) : list string * list string :=
  match a, b with
  | x :: a', y :: b' => if String.eqb x y then drop_common a' b' else (a, b)
  | _, _ => (a, b)
  end.

(** [os.path.relpath(p, start)], for a path [p] that is not empty. *)
Definition relpath (cwd p start : string) : string :=
  let nonempty := List.filter PyStr.truthy in
  let start_list := nonempty (PyStr.split slash (abspath cwd start)) in
  let path_list := nonempty (PyStr.split slash (abspath cwd p)) in
  let '(s_rest, p_rest) := drop_common start_list path_list in
  let rel_list := (repeat ".." (length s_rest) ++ p_rest)%list in
  match rel_list with
  | [] => "."
  | c :: r => fold_left join r c
  end.

End PosixPath.

Module Glob.

(** Shell-style matching of [name] against [pat]: ['*'] matches any run of
    characters, ['?'] any one character, every other character itself.
    This is [fnmatch.fnmatch] on POSIX for patterns without ['[']. *)
Fixpoint fnmatch_pat (pat : string) : string -> bool :=
  match pat with
  | EmptyString => fun name => negb (PyStr.truthy name)
  | String p pat' =>
      if Ascii.eqb p "*" then
        fix star (name : string) : bool :=
          fnmatch_pat pat' name
          || match name with
             | String _ name' => star name'
             | EmptyString => false
             end
      else
        fun name =>
          match name with
          | String c name' =>
              (Ascii.eqb p "?" || Ascii.eqb p c) && fnmatch_pat pat' name'
          | EmptyString => false
          end
  end.

Definition fnmatch (name pat : string) : bool := fnmatch_pat pat name.

End Glob.

(** The library functions [version.py] imports.  The methods below are
    written against this interface; [posix] is the instance the worked
    examples run on. *)
Class PyLib := {
  (** [hashlib.sha256(b).hexdigest()] *)
  sha256_hexdigest : list byte -> string;
  (** [fnmatch.fnmatch(name, pat)] *)
  fnmatch : string -> string -> bool;
  (** [os.path.join(a, b)] *)
  path_join : string -> string -> string;
  (** [os.path.abspath(p)] *)
  abspath : string -> string;
  (** [os.path.relpath(p, start)] *)
  relpath : string -> string -> string
}.

Definition posix (cwd : string) : PyLib := {|
  sha256_hexdigest := SHA256.hexdigest;
  fnmatch := Glob.fnmatch;
  path_join := PosixPath.join;
  abspath := PosixPath.abspath cwd;
  relpath := PosixPath.relpath cwd
|}.

(* ===================================================================== *)
(** ** The persisted layout and the world *)
(* ===================================================================== *)

(** One entry of the index, and of a commit's [files]:
    [{'path': ..., 'hash': ...}]. *)
Record IndexEntry := { entry_path : string; entry_hash : string }.

(** The dictionary [commit_data] that [commit] dumps.  [c_parent] is what
    [_get_last_commit] returned: [None] is JSON's [null]. *)
Record commit_data := {
  c_message : string;
  c_timestamp : Z;
  c_parent : option string;
  c_files : list IndexEntry
}.

(** What a file of [objects/] holds: the bytes [add] copied there, or the
    record [commit] dumped there. *)
Inductive content :=
| Blob (b : list byte)
| CommitObject (c : commit_data).

(** A file of [objects/], with the change time [os.path.getctime] reads. *)
Record object_file := { ctime : Z; data : content }.

(** What a path of the working tree names. *)
Inductive node :=
| File (b : list byte)
| Dir.

(** The directory [.gitclone], with [objects/] and [refs/heads/] in it.
    A file that may be missing is an [option]. *)
Record RepoDir := {
  HEAD : option string;
  heads : gmap string string;
  index : option (list IndexEntry);
  ignore : option string;
  objects : gmap string object_file
}.

(** Every line the class prints. *)
Inductive printed :=
| PErrorNotExist (file : string)
| PSkipIgnored (file : string)
| PAdded (n : nat)
| PNoChanges
| PCommitted (n : nat) (message : string)
| PLogCommit (digest : string)
| PLogMessage (message : string)
| PLogTimestamp (t : Z)
| PLogFiles (paths : list string)
| PLogSeparator
| PCreatedBranch (name : string)
| PBranchNotExist (name : string)
| PSwitched (name : string)
| PNoCommits
| PDiffHeader (branch1 branch2 : string)
| PDiffAdded (path : string)
| PDiffRemoved (path : string)
| PDiffModified (path : string).

(** The world a method runs in: the clock of the system, the files outside
    [.gitclone] by the path that opens them, [.gitclone] itself when it
    exists, and the lines printed so far. *)
Record World := {
  clock : Z;
  worktree : gmap string node;
  repo : option RepoDir;
  stdout : list printed
}.

Definition set_repo (r : option RepoDir) (w : World) : World :=
  {| clock := clock w; worktree := worktree w; repo := r; stdout := stdout w |}.

Definition set_clock (t : Z) (w : World) : World :=
  {| clock := t; worktree := worktree w; repo := repo w; stdout := stdout w |}.

Definition set_stdout (o : list printed) (w : World) : World :=
  {| clock := clock w; worktree := worktree w; repo := repo w; stdout := o |}.

Definition set_HEAD (s : string) (r : RepoDir) : RepoDir :=
  {| HEAD := Some s; heads := heads r; index := index r; ignore := ignore r;
     objects := objects r |}.

Definition set_head (name s : string) (r : RepoDir) : RepoDir :=
  {| HEAD := HEAD r; heads := <[name := s]> (heads r); index := index r;
     ignore := ignore r; objects := objects r |}.

Definition set_index (l : list IndexEntry) (r : RepoDir) : RepoDir :=
  {| HEAD := HEAD r; heads := heads r; index := Some l; ignore := ignore r;
     objects := objects r |}.

Definition set_object (h : string) (o : object_file) (r : RepoDir) : RepoDir :=
  {| HEAD := HEAD r; heads := heads r; index := index r; ignore := ignore r;
     objects := <[h := o]> (objects r) |}.

(** The in-memory fields of a [Repository] object. *)
Record Repository := {
  self_path : string;
  repo_dir : string;
  current_branch : string
}.

(* ===================================================================== *)
(** ** The monad of the methods: state, exceptions, fuel *)
(* ===================================================================== *)

(** The exceptions the methods can raise.  [NotACommit] stands for what
    [json.load] and the subscripts after it raise on an object that is not
    a commit record. *)
Inductive exn :=
| FileNotFoundError
| FileExistsError
| IsADirectoryError
| AttributeError
| NotACommit.

(** How a call ends: it returns, it raises, or the fuel given to a loop
    ran out before the loop ended. *)
Inductive outcome (A : Type) :=
| Return (a : A)
| Raise (e : exn)
| OutOfFuel.
Arguments Return {A} a.
Arguments Raise {A} e.
Arguments OutOfFuel {A}.

Definition M (A : Type) : Type := World -> outcome A * World.

#[global] Instance M_ret : MRet M := fun A a w => (Return a, w).

#[global] Instance M_bind : MBind M := fun A B f m w =>
  match m w with
  | (Return a, w') => f a w'
  | (Raise e, w') => (Raise e, w')
  | (OutOfFuel, w') => (OutOfFuel, w')
  end.

Definition raise {A} (e : exn) : M A := fun w => (Raise e, w).

Definition out_of_fuel {A} : M A := fun w => (OutOfFuel, w).

(** [try: body except FileNotFoundError: handler] *)
Definition try_except {A} (body handler : M A) : M A := fun w =>
  match body w with
  | (Raise FileNotFoundError, w') => handler w'
  | r => r
  end.

(** [print(...)] *)
Definition print (p : printed) : M unit := fun w =>
  (Return tt, set_stdout (stdout w ++ [p]) w).

(** Reading a file of [.gitclone]: [FileNotFoundError] when the directory
    or the file is missing.  [f] picks the file: HEAD, the index, the
    ignore file, or the file of [refs/heads] or [objects] with a given
    plain name. *)
Definition read_repo {A} (f : RepoDir -> option A) : M A := fun w =>
  match repo w with
  | Some r => match f r with
              | Some a => (Return a, w)
              | None => (Raise FileNotFoundError, w)
              end
  | None => (Raise FileNotFoundError, w)
  end.

(** Writing a file of [.gitclone] (mode ['w'] creates or truncates it):
    [FileNotFoundError] when the directory is missing.  As for a read, the
    file is one of the three at the top or the one with a given plain name
    in [refs/heads] or [objects]. *)
Definition write_repo (f : RepoDir -> RepoDir) : M unit := fun w =>
  match repo w with
  | Some r => (Return tt, set_repo (Some (f r)) w)
  | None => (Raise FileNotFoundError, w)
  end.

(** [os.path.exists] on a path under [.gitclone]: the directory itself,
    or the file with a given plain name in [refs/heads] or [objects]. *)
Definition exists_repo (f : RepoDir -> bool) : M bool := fun w =>
  (Return (match repo w with Some r => f r | None => false end), w).

(** The time a write stamps on the file it changes. *)
Definition now : M Z := fun w => (Return (clock w), w).

(** Time passes: the clock of the system reads [t]. *)
Definition at_time (t : Z) : M unit := fun w => (Return tt, set_clock t w).

(** [json.load] of the object file with the plain name [digest], as a
    commit record. *)
Definition load_commit (digest : string) : M commit_data :=
  c ← read_repo (fun r => data <$> objects r !! digest);
  match c with
  | CommitObject cd => mret cd
  | Blob _ => raise NotACommit
  end.

(** [for x in l: body x] *)
Fixpoint for_each {A} (l : list A) (body : A -> M unit) : M unit :=
  match l with
  | [] => mret tt
  | x :: r => body x;; for_each r body
  end.

(* ===================================================================== *)
(** ** class Repository *)
(* ===================================================================== *)

Definition newline : string := String "010"%char EmptyString.

(** [[line.strip() for line in f if line.strip()]] *)
Definition ignore_patterns_of (text : string) : list string :=
  List.filter PyStr.truthy (List.map PyStr.strip (PyStr.split "010"%char text)).

(** [{file['path']: file['hash'] for file in files}]: a later entry of a
    path replaces an earlier one. *)
Definition files_dict (files : list IndexEntry) : gmap string string :=
  foldl (fun d file => <[entry_path file := entry_hash file]> d) ∅ files.

(** [list(d.keys())] *)
Definition keys (d : gmap string string) : list string := (map_to_list d).*1.

(** [current_commit or ''] *)
Definition or_empty (o : option string) : string :=
  if PyStr.truthy_opt o then default "" o else "".

Section Repository.
Context {lib : PyLib}.

(** [_initialize_repo]: [os.makedirs] refuses a directory that exists. *)
Definition _initialize_repo : M unit := fun w =>
  match repo w with
  | Some _ => (Raise FileExistsError, w)
  | None =>
      (Return tt,
       set_repo (Some {| HEAD := Some "ref: refs/heads/main";
                         heads := {[ "main" := "" ]};
                         index := Some [];
                         ignore := Some (".gitclone" ++ newline);
                         objects := ∅ |}) w)
  end.

(** [_get_current_branch] *)
Definition _get_current_branch : M string :=
  text ← read_repo HEAD;
  mret (PyStr.strip (PyStr.last_item (PyStr.split "/"%char text))).

(** [Repository(path)] *)
Definition __init__ (path : string) : M Repository :=
  there ← exists_repo (fun _ => true);
  (if negb there then _initialize_repo else mret tt);;
  branch_name ← _get_current_branch;
  mret {| self_path := abspath path;
          repo_dir := path_join path ".gitclone";
          current_branch := branch_name |}.

(** [_should_ignore] *)
Definition _should_ignore (self : Repository) (path : string) : M bool :=
  let relative_path := relpath path (self_path self) in
  ignore_patterns ←
    try_except (text ← read_repo ignore; mret (ignore_patterns_of text))
               (mret []);
  mret (existsb (fun pattern => fnmatch relative_path pattern) ignore_patterns).

(** [os.path.exists] on a path of the working tree, that is on the path
    [add] makes of a file that stays outside [.gitclone]. *)
Definition path_exists (full_path : string) : M bool := fun w =>
  (Return (bool_decide (is_Some (worktree w !! full_path))), w).

(** [open(full_path, 'rb').read()], on a path of the working tree. *)
Definition read_bytes (full_path : string) : M (list byte) := fun w =>
  match worktree w !! full_path with
  | Some (File b) => (Return b, w)
  | Some Dir => (Raise IsADirectoryError, w)
  | None => (Raise FileNotFoundError, w)
  end.

(** [shutil.copy(full_path, objects/<digest>)], from a path of the working
    tree: the source is then not the object file itself. *)
Definition shutil_copy (full_path digest : string) : M unit :=
  b ← read_bytes full_path;
  t ← now;
  write_repo (set_object digest {| ctime := t; data := Blob b |}).

(** The loop of [add], from the index read to the index to write. *)
Fixpoint add_loop (self : Repository) (files : list string)
    (index : list IndexEntry) : M (list IndexEntry) :=
  match files with
  | [] => mret index
  | file :: rest =>
      let full_path := path_join (self_path self) file in
      there ← path_exists full_path;
      if negb there then
        print (PErrorNotExist file);; add_loop self rest index
      else
        ignored ← _should_ignore self full_path;
        if (ignored : bool) then
          print (PSkipIgnored file);; add_loop self rest index
        else
          b ← read_bytes full_path;
          let file_hash := sha256_hexdigest b in
          shutil_copy full_path file_hash;;
          let index_entry := {| entry_path := file; entry_hash := file_hash |} in
          let index :=
            (List.filter (fun entry => negb (String.eqb (entry_path entry) file)) index
             ++ [index_entry])%list in
          add_loop self rest index
  end.

(** [add] *)
Definition add (self : Repository) (files : list string) : M unit :=
  index ← read_repo index;
  index ← add_loop self files index;
  write_repo (set_index index);;
  print (PAdded (length files)).

(** [_get_last_commit]: the ref file of the current branch, a plain name,
    may be missing. *)
Definition _get_last_commit (self : Repository) : M (option string) :=
  try_except
    (text ← read_repo (fun r => heads r !! current_branch self);
     mret (Some (PyStr.strip text)))
    (mret None).

(** [os.time()]: the module [os] has no attribute [time]. *)
Definition os_time : M Z := raise AttributeError.

(** [commit] *)
Definition commit (self : Repository) (message : string) : M unit :=
  index ← read_repo index;
  match index with
  | [] => print PNoChanges
  | _ :: _ =>
      let commit_hash := sha256_hexdigest (PyStr.encode message) in
      there ← exists_repo (fun r => bool_decide (is_Some (objects r !! commit_hash)));
      timestamp ←
        (if (there : bool)
         then read_repo (fun r => ctime <$> objects r !! commit_hash)
         else os_time);
      parent ← _get_last_commit self;
      let commit_data := {| c_message := message; c_timestamp := timestamp;
                            c_parent := parent; c_files := index |} in
      t ← now;
      write_repo (set_object commit_hash {| ctime := t; data := CommitObject commit_data |});;
      write_repo (set_head (current_branch self) commit_hash);;
      write_repo (set_index []);;
      print (PCommitted (length index) message)
  end.

(** What one pass through the body of the loop of [log] leaves. *)
Inductive log_step :=
| Next (current_commit : option string)
| Break.

(** The loop of [log]: [fuel] bounds the number of passes. *)
Fixpoint log_loop (fuel : nat) (current_commit : option string) : M unit :=
  if PyStr.truthy_opt current_commit then
    match fuel with
    | O => out_of_fuel
    | S fuel' =>
        step ← try_except
          (commit_data ← load_commit (default "" current_commit);
           print (PLogCommit (default "" current_commit));;
           print (PLogMessage (c_message commit_data));;
           print (PLogTimestamp (c_timestamp commit_data));;
           print (PLogFiles (List.map entry_path (c_files commit_data)));;
           print PLogSeparator;;
           mret (Next (c_parent commit_data)))
          (mret Break);
        match step with
        | Next parent => log_loop fuel' parent
        | Break => mret tt
        end
    end
  else mret tt.

(** [log] *)
Definition log (fuel : nat) (self : Repository) : M unit :=
  current_commit ← _get_last_commit self;
  log_loop fuel current_commit.

(** [branch]: the ref file with the plain name [branch_name] is created
    or truncated.  What is written is a stripped read, which text mode
    reads back as it is. *)
Definition branch (self : Repository) (branch_name : string) : M unit :=
  current_commit ← _get_last_commit self;
  write_repo (set_head branch_name (or_empty current_commit));;
  print (PCreatedBranch branch_name).

(** [checkout]: the object's [current_branch] changes, so the method
    returns the object.  HEAD is a text file: it holds what reads back of
    the string written, while the object keeps the name as given. *)
Definition checkout (self : Repository) (branch_name : string) : M Repository :=
  there ← exists_repo (fun r => bool_decide (is_Some (heads r !! branch_name)));
  if negb there then
    print (PBranchNotExist branch_name);; mret self
  else
    write_repo (set_HEAD (PyStr.universal_newlines ("ref: refs/heads/" ++ branch_name)));;
    print (PSwitched branch_name);;
    mret {| self_path := self_path self; repo_dir := repo_dir self;
            current_branch := branch_name |}.

(** [_get_branch_last_commit]: as [_get_last_commit], for the plain name
    given. *)
Definition _get_branch_last_commit (self : Repository) (branch_name : string)
  : M (option string) :=
  try_except
    (text ← read_repo (fun r => heads r !! branch_name);
     mret (Some (PyStr.strip text)))
    (mret None).

(** The line [diff] prints for one path, if any. *)
Definition diff_path (branch1_files branch2_files : gmap string string)
    (path : string) : M unit :=
  match branch1_files !! path, branch2_files !! path with
  | None, _ => print (PDiffAdded path)
  | Some _, None => print (PDiffRemoved path)
  | Some h1, Some h2 =>
      if negb (String.eqb h1 h2) then print (PDiffModified path) else mret tt
  end.

(** [diff] *)
Definition diff (self : Repository) (branch1 branch2 : string) : M unit :=
  branch1_commit ← _get_branch_last_commit self branch1;
  branch2_commit ← _get_branch_last_commit self branch2;
  if negb (PyStr.truthy_opt branch1_commit) || negb (PyStr.truthy_opt branch2_commit) then
    print PNoCommits
  else
    branch1_data ← load_commit (default "" branch1_commit);
    branch2_data ← load_commit (default "" branch2_commit);
    let branch1_files := files_dict (c_files branch1_data) in
    let branch2_files := files_dict (c_files branch2_data) in
    print (PDiffHeader branch1 branch2);;
    for_each (elements (list_to_set (keys branch1_files ++ keys branch2_files) : gset string))
             (diff_path branch1_files branch2_files).

(** A call of one of the four methods that change a repository. *)
Inductive op :=
| Add (files : list string)
| Commit (message : string)
| Branch (branch_name : string)
| Checkout (branch_name : string).

Definition run_op (self : Repository) (o : op) : M Repository :=
  match o with
  | Add files => add self files;; mret self
  | Commit message => commit self message;; mret self
  | Branch branch_name => branch self branch_name;; mret self
  | Checkout branch_name => checkout self branch_name
  end.

(** A script: the calls one after the other, each at the time given with
    it, up to the first exception. *)
Fixpoint run_ops (self : Repository) (script : list (Z * op)) : M Repository :=
  match script with
  | [] => mret self
  | (t, o) :: rest =>
      at_time t;; self' ← run_op self o; run_ops self' rest
  end.

End Repository.

(* ===================================================================== *)
(** ** Pure readings of the disk, used to state what the methods do *)
(* ===================================================================== *)

(** A digest as [hexdigest()] prints it: 64 characters of [0-9a-f]. *)
Definition is_hexdigit (c : ascii) : bool :=
  let n := N_of_ascii c in
  ((48 <=? n) && (n <=? 57) || (97 <=? n) && (n <=? 102))%N.

Fixpoint all_hexdigits (s : string) : bool :=
  match s with
  | EmptyString => true
  | String c r => is_hexdigit c && all_hexdigits r
  end.

Definition is_hexdigest (s : string) : bool :=
  all_hexdigits s && Nat.eqb (String.length s) 64.

(** The content of the ref file of a branch, stripped, as both
    [_get_last_commit] and [_get_branch_last_commit] read it. *)
Definition tip_of (w : World) (branch_name : string) : option string :=
  r ← repo w; text ← heads r !! branch_name; Some (PyStr.strip text).

(** The object file stored under a digest. *)
Definition object_of (w : World) (digest : string) : option object_file :=
  r ← repo w; objects r !! digest.

(** The commit record stored under a digest, if it is one. *)
Definition commit_of (w : World) (digest : string) : option commit_data :=
  o ← object_of w digest;
  match data o with CommitObject c => Some c | Blob _ => None end.

(** The patterns [_should_ignore] reads. *)
Definition ignore_patterns (w : World) : list string :=
  match r ← repo w; ignore r with
  | Some text => ignore_patterns_of text
  | None => []
  end.

(** The five lines [log] prints for one commit. *)
Definition log_lines (digest : string) (c : commit_data) : list printed :=
  [ PLogCommit digest; PLogMessage (c_message c); PLogTimestamp (c_timestamp c);
    PLogFiles (List.map entry_path (c_files c)); PLogSeparator ].

(** [history w d visited last]: following the [parent] fields from the
    digest [d] leads through the commits [visited], in this order, each
    under a non-empty digest, and the last of them has the parent [last]. *)
Inductive history (w : World) : string -> list (string * commit_data) -> option string -> Prop :=
| history_last (d : string) (c : commit_data) :
    PyStr.truthy d = true ->
    commit_of w d = Some c ->
    history w d [(d, c)] (c_parent c)
| history_step (d p : string) (c : commit_data)
      (rest : list (string * commit_data)) (last : option string) :
    PyStr.truthy d = true ->
    commit_of w d = Some c ->
    c_parent c = Some p ->
    history w p rest last ->
    history w d ((d, c) :: rest) last.

(** The lines [log] prints for the commits it visits. *)
Fixpoint walk_lines (visited : list (string * commit_data)) : list printed :=
  match visited with
  | [] => []
  | (d, c) :: rest => (log_lines d c ++ walk_lines rest)%list
  end.

(** [n] times the same lines. *)
Fixpoint repeat_lines (n : nat) (lines : list printed) : list printed :=
  match n with
  | O => []
  | S n' => (lines ++ repeat_lines n' lines)%list
  end.

(** The line of [diff] for one path, as a value. *)
Definition diff_line (branch1_files branch2_files : gmap string string)
    (path : string) : option printed :=
  match branch1_files !! path, branch2_files !! path with
  | None, _ => Some (PDiffAdded path)
  | Some _, None => Some (PDiffRemoved path)
  | Some h1, Some h2 =>
      if negb (String.eqb h1 h2) then Some (PDiffModified path) else None
  end.


(** The paths of a commit's snapshot, and the digest it holds for a path
    (the one of the last entry of that path). *)
Definition paths (c : commit_data) : list string := List.map entry_path (c_files c).

Definition digest_at (c : commit_data) (path : string) : option string :=
  files_dict (c_files c) !! path.

(** The lines [diff] prints after its header. *)
Definition diff_lines (a b : commit_data) : list printed :=
  let branch1_files := files_dict (c_files a) in
  let branch2_files := files_dict (c_files b) in
  omap (diff_line branch1_files branch2_files)
       (elements (list_to_set (keys branch1_files ++ keys branch2_files) : gset string)).


(** The index as [json.load] reads it. *)
Definition staged_of (w : World) : option (list IndexEntry) :=
  r ← repo w; index r.

(** The index after [add] staged [file] with digest [h]. *)
Definition upsert (file h : string) (staged : list IndexEntry) : list IndexEntry :=
  (List.filter (fun entry => negb (String.eqb (entry_path entry) file)) staged
   ++ [ {| entry_path := file; entry_hash := h |} ])%list.

Section Readings.
Context {lib : PyLib}.

(** What [commit] leaves when something is staged and an object already
    sits at the path of the commit. *)
Definition committed (self : Repository) (message : string) (w : World)
    (r : RepoDir) (staged : list IndexEntry) (old : object_file) : World :=
  let commit_hash := sha256_hexdigest (PyStr.encode message) in
  let record := {| c_message := message; c_timestamp := ctime old;
                   c_parent := tip_of w (current_branch self);
                   c_files := staged |} in
  set_stdout (stdout w ++ [PCommitted (length staged) message])
    (set_repo
       (Some (set_index []
                (set_head (current_branch self) commit_hash
                   (set_object commit_hash
                      {| ctime := clock w; data := CommitObject record |} r))))
       w).

(** Whether [_should_ignore] skips a file given to [add]. *)
Definition ignores (self : Repository) (w : World) (file : string) : bool :=
  existsb
    (fun pattern =>
       fnmatch (relpath (path_join (self_path self) file) (self_path self)) pattern)
    (ignore_patterns w).

(** What [add] of one file that holds the bytes [b] leaves. *)
Definition added (file : string) (b : list byte) (w : World) (r : RepoDir)
    (staged : list IndexEntry) : World :=
  let h := sha256_hexdigest b in
  set_stdout (stdout w ++ [PAdded 1])
    (set_repo
       (Some (set_index (upsert file h staged)
                (set_object h {| ctime := clock w; data := Blob b |} r)))
       w).

End Readings.

(** A string without the character ['/']. *)
Fixpoint no_slash (s : string) : bool :=
  match s with
  | EmptyString => true
  | String c r => negb (Ascii.eqb c "/") && no_slash r
  end.

(** A string without the character [c]. *)
Fixpoint lacks (c : ascii) (s : string) : bool :=
  match s with
  | EmptyString => true
  | String c' r => negb (Ascii.eqb c' c) && lacks c r
  end.

(** A string without carriage return: written to a text file, it reads
    back as it is. *)
Definition no_cr (s : string) : bool := lacks "013" s.

(** A plain file name: [os.path.join(directory, s)] is the path of the
    entry [s] of the directory, whether or not there is such an entry.
    The name is not empty, it is neither [.] nor [..], it has no ['/'] and
    no NUL, and its UTF-8 bytes are no more than the 255 a file name may
    have. *)
Definition plain_name (s : string) : bool :=
  PyStr.truthy s && no_slash s && lacks "000" s
  && negb (String.eqb s ".") && negb (String.eqb s "..")
  && Nat.leb (List.length (PyStr.encode s)) 255.

(** A path given to [add] that stays in the working tree: relative, made
    of plain names, none of them [.gitclone]. *)
Definition tame_path (file : string) : bool :=
  forallb (fun part => plain_name part && negb (String.eqb part ".gitclone"))
          (PyStr.split "/" file).

(** A call whose arguments are plain: [add] of paths of the working tree,
    [branch] of a plain name, [checkout] of a plain name that HEAD reads
    back as written. *)
Definition tame_op (o : op) : bool :=
  match o with
  | Add files => forallb tame_path files
  | Commit _ => true
  | Branch branch_name => plain_name branch_name
  | Checkout branch_name => plain_name branch_name && no_cr branch_name
  end.

Definition tame_script (script : list (Z * op)) : bool :=
  forallb (fun step => tame_op step.2) script.

(** [.gitclone] as [_initialize_repo] writes it. *)
Definition initial_repo : RepoDir := {|
  HEAD := Some "ref: refs/heads/main";
  heads := {[ "main" := "" ]};
  index := Some [];
  ignore := Some (".gitclone" ++ newline);
  objects := ∅
|}.

(** The HEAD file names the branch [name], and that branch has a ref
    file. *)
Definition on_branch (name : string) (w : World) : Prop :=
  exists r, repo w = Some r
            /\ HEAD r = Some ("ref: refs/heads/" ++ name)
            /\ is_Some (heads r !! name).

(** From [w] to [w'] no object file and no ref file went away, and the
    working tree is the same. *)
Definition keeps (w w' : World) : Prop :=
  (forall d, is_Some (object_of w d) -> is_Some (object_of w' d))
  /\ (forall n, is_Some (tip_of w n) -> is_Some (tip_of w' n))
  /\ worktree w' = worktree w.

(** The paths of an index. *)
Definition index_paths (staged : list IndexEntry) : list string :=
  List.map entry_path staged.

Section MoreReadings.
Context {lib : PyLib}.

(** The line [add] prints for a file it skips. *)
Definition skip_line (self : Repository) (w : World) (file : string) : printed :=
  match worktree w !! path_join (self_path self) file with
  | Some _ => PSkipIgnored file
  | None => PErrorNotExist file
  end.

End MoreReadings.

(** From [w] to [w'] only object files were written (and lines printed). *)
Definition only_objects_written (w w' : World) : Prop :=
  worktree w' = worktree w /\ clock w' = clock w
  /\ exists r r', repo w = Some r /\ repo w' = Some r'
       /\ HEAD r' = HEAD r /\ heads r' = heads r /\ index r' = index r
       /\ ignore r' = ignore r
       /\ (forall d, is_Some (objects r !! d) -> is_Some (objects r' !! d)).

(** From [w] to [w'] HEAD is the same, no ref and no object went away,
    and the working tree is the same. *)
Definition refs_kept (w w' : World) : Prop :=
  worktree w' = worktree w
  /\ forall r, repo w = Some r ->
       exists r', repo w' = Some r' /\ HEAD r' = HEAD r
         /\ (forall n, is_Some (heads r !! n) -> is_Some (heads r' !! n))
         /\ (forall d, is_Some (objects r !! d) -> is_Some (objects r' !! d)).

(** The object after a call: the one returned, or the one before when
    the call did not return. *)
Definition self_after (self : Repository) (out : outcome Repository) : Repository :=
  match out with Return self' => self' | _ => self end.

(* ===================================================================== *)
(** ** A worked repository *)
(* ===================================================================== *)

Module Example.

(** The library of a POSIX process started in [/home/u]. *)
Definition lib : PyLib := posix "/home/u".

(** The digest of the one-byte message [m]. *)
Definition h_m : string :=
  "62c66a7a5dd70c3146618063c344e531e6d4b59e379808443ce962b3abd63c5a".

(** A working tree with two files and no repository yet.  [note.txt]
    holds the very bytes of the commit message used below. *)
Definition w0 : World := {|
  clock := 1000;
  worktree := {[ "/home/u/proj/note.txt" := File (PyStr.encode "m");
                 "/home/u/proj/g.txt" := File (PyStr.encode "hello") ]};
  repo := None;
  stdout := []
|}.

(** [Repository('proj')], then the calls of [script]. *)
Definition session (script : list (Z * op)) : M Repository :=
  self ← __init__ (lib := lib) "proj"; run_ops (lib := lib) self script.

(** The object every session returns when it does not raise. *)
Definition self_on (branch_name : string) : Repository :=
  {| self_path := "/home/u/proj"; repo_dir := "proj/.gitclone";
     current_branch := branch_name |}.

(** The world a session leaves. *)
Definition after (script : list (Z * op)) : World := (session script w0).2.

Definition one_commit : list (Z * op) :=
  [(1000, Add ["note.txt"]); (1010, Commit "m")].

Definition two_commits : list (Z * op) :=
  [(1000, Add ["note.txt"]); (1010, Commit "m");
   (1020, Add ["g.txt"]); (1030, Commit "m")].

Definition two_branches : list (Z * op) :=
  [(1000, Branch "dev"); (1010, Add ["note.txt"]); (1020, Commit "m");
   (1030, Checkout "dev")].

(** [.gitclone] as [_initialize_repo] makes it. *)
Definition fresh_repo : RepoDir := {|
  HEAD := Some "ref: refs/heads/main";
  heads := {[ "main" := "" ]};
  index := Some [];
  ignore := Some (".gitclone" ++ newline);
  objects := ∅
|}.

(** The world after [Repository('proj')]. *)
Definition fresh : World := {|
  clock := 1000; worktree := worktree w0; repo := Some fresh_repo; stdout := []
|}.

(** [.gitclone] after [add(['note.txt'])]: the blob sits where a commit
    with the message [m] will be written. *)
Definition staged_repo : RepoDir := {|
  HEAD := Some "ref: refs/heads/main";
  heads := {[ "main" := "" ]};
  index := Some [ {| entry_path := "note.txt"; entry_hash := h_m |} ];
  ignore := Some (".gitclone" ++ newline);
  objects := {[ h_m := {| ctime := 1000; data := Blob (PyStr.encode "m") |} ]}
|}.

Definition staged : World := {|
  clock := 1000; worktree := worktree w0; repo := Some staged_repo;
  stdout := [PAdded 1]
|}.

(** A repository whose only commit names a parent that is not stored. *)
Definition dangling_repo : RepoDir := {|
  HEAD := Some "ref: refs/heads/main";
  heads := {[ "main" := h_m ]};
  index := Some [];
  ignore := Some (".gitclone" ++ newline);
  objects := {[ h_m := {| ctime := 1500;
                          data := CommitObject {|
                            c_message := "m"; c_timestamp := 1400;
                            c_parent := Some "00ff";
                            c_files := [ {| entry_path := "note.txt";
                                            entry_hash := h_m |} ] |} |} ]}
|}.

Definition dangling : World := {|
  clock := 2000; worktree := ∅; repo := Some dangling_repo; stdout := []
|}.

(** The digest of the five bytes of [hello]. *)
Definition h_hello : string :=
  "2cf24dba5fb0a30e26e83b2ac5b9e29e1b161e5c1fa7425e73043362938b9824".

(** [main] keeps the first commit; [dev] goes on with one of its own. *)
Definition diverged : list (Z * op) :=
  [(1000, Add ["note.txt"]); (1010, Commit "m"); (1020, Branch "dev");
   (1030, Checkout "dev"); (1040, Add ["g.txt"]); (1050, Commit "hello")].

(** The record behind [h_m] after [one_commit]. *)
Definition first_commit : commit_data := {|
  c_message := "m"; c_timestamp := 1000; c_parent := Some "";
  c_files := [ {| entry_path := "note.txt"; entry_hash := h_m |} ]
|}.

(** The record behind [h_m] after [two_commits]. *)
Definition second_commit : commit_data := {|
  c_message := "m"; c_timestamp := 1010; c_parent := Some h_m;
  c_files := [ {| entry_path := "g.txt"; entry_hash := h_hello |} ]
|}.

(** The record behind [h_hello] after [diverged]. *)
Definition dev_commit : commit_data := {|
  c_message := "hello"; c_timestamp := 1040; c_parent := Some h_m;
  c_files := [ {| entry_path := "g.txt"; entry_hash := h_hello |} ]
|}.

(** The record in [dangling]. *)
Definition dangling_commit : commit_data := {|
  c_message := "m"; c_timestamp := 1400; c_parent := Some "00ff";
  c_files := [ {| entry_path := "note.txt"; entry_hash := h_m |} ]
|}.

End Example.

(** Two more repositories for the worked examples. *)
Module Cases.

(** The working tree of [Example.w0] with a directory [src] in it, and a
    repository just initialised. *)
Definition with_directory : World := {|
  clock := 1000;
  worktree := <[ "/home/u/proj/src" := Dir ]> (worktree Example.w0);
  repo := Some initial_repo;
  stdout := []
|}.

(** [main] stands at a commit; the ref of [dev] names an object that is
    not stored. *)
Definition broken_repo : RepoDir := {|
  HEAD := Some "ref: refs/heads/main";
  heads := {[ "main" := Example.h_m; "dev" := "00ff" ]};
  index := Some [];
  ignore := Some (".gitclone" ++ newline);
  objects := objects Example.dangling_repo
|}.

Definition broken_ref : World := {|
  clock := 2000; worktree := ∅; repo := Some broken_repo; stdout := []
|}.

End Cases.

(* ===================================================================== *)
(** * Properties *)
(* ===================================================================== *)

(** ** The monad *)

Ltac unfold_M :=
  unfold mbind, M_bind, mret, M_ret, read_repo, write_repo, exists_repo,
    print, raise, out_of_fuel, try_except, now in *.

(** Runs a method on a world as far as its hypotheses tell what the disk
    holds. *)
Ltac mrun :=
  unfold_M;
  repeat (cbn [negb fst snd set_stdout set_repo repo stdout clock worktree];
          try match goal with
              | H : _ = _ |- _ => progress rewrite H
              end).

Lemma bind_Return {A B} (m : M A) (f : A -> M B) (w w' : World) (a : A) :
  m w = (Return a, w') -> (m ≫= f) w = f a w'.
Proof. intros E. unfold mbind, M_bind. rewrite E. reflexivity. Qed.

Lemma bind_Raise {A B} (m : M A) (f : A -> M B) (w w' : World) (e : exn) :
  m w = (Raise e, w') -> (m ≫= f) w = (Raise e, w').
Proof. intros E. unfold mbind, M_bind. rewrite E. reflexivity. Qed.

(** ** The library models *)

Example sha256_empty :
  SHA256.hexdigest [] = "e3b0c44298fc1c149afbf4c8996fb92427ae41e4649b934ca495991b7852b855".
Proof. vm_compute. reflexivity. Qed.

Example sha256_abc :
  SHA256.hexdigest (PyStr.encode "abc")
  = "ba7816bf8f01cfea414140de5dae2223b00361a396177a9cb410ff61f20015ad".
Proof. vm_compute. reflexivity. Qed.

Example sha256_two_blocks :
  SHA256.hexdigest (PyStr.encode "aaaaaaaaaaaaaaaaaaaaaaaaaaaaaaaaaaaaaaaaaaaaaaaaaaaaaaaa")
  = "b35439a4ac6f0948b6d6f9e3c6af0f5f590ce20f1bde7090ef7970686ec6738a".
Proof. vm_compute. reflexivity. Qed.

Example sha256_m : SHA256.hexdigest (PyStr.encode "m") = Example.h_m.
Proof. vm_compute. reflexivity. Qed.

Example normpath_dots : PosixPath.normpath "//a//../../b/" = "//b".
Proof. vm_compute. reflexivity. Qed.

Example relpath_inside :
  PosixPath.relpath "/home/u" "/home/u/proj/a/./b/../c.txt" "/home/u/proj" = "a/c.txt".
Proof. vm_compute. reflexivity. Qed.

Example relpath_outside :
  PosixPath.relpath "/home/u" "/x/y" "/home/u/proj" = "../../../x/y".
Proof. vm_compute. reflexivity. Qed.

Example fnmatch_gitclone :
  Glob.fnmatch ".gitclone" ".gitclone" = true
  /\ Glob.fnmatch ".gitclone/HEAD" ".gitclone" = false
  /\ Glob.fnmatch "a.gitclone" "*.git?lone" = true.
Proof. vm_compute. repeat split. Qed.

(** ** Names and paths *)

Example plain_names :
  plain_name "main" = true /\ plain_name "feature-branch" = true
  /\ plain_name Example.h_m = true
  /\ plain_name "" = false /\ plain_name "." = false /\ plain_name ".." = false
  /\ plain_name "feat/x" = false /\ plain_name "../../HEAD" = false.
Proof. vm_compute. repeat split. Qed.

Example tame_paths :
  tame_path "note.txt" = true /\ tame_path "src/a.py" = true
  /\ tame_path "" = false /\ tame_path "." = false /\ tame_path "src/" = false
  /\ tame_path "/home/u/proj/note.txt" = false /\ tame_path "../note.txt" = false
  /\ tame_path ".gitclone" = false /\ tame_path ".gitclone/HEAD" = false.
Proof. vm_compute. repeat split. Qed.

Example text_mode_newlines :
  PyStr.universal_newlines
    (String "a" (String "013" (String "010" (String "b" (String "013" "c")))))
  = String "a" (String "010" (String "b" (String "010" "c")))
  /\ PyStr.universal_newlines "ref: refs/heads/main" = "ref: refs/heads/main".
Proof. vm_compute. repeat split. Qed.

Section Properties.
Context {lib : PyLib}.

(** ** The constructor *)

(** C10. On a path whose [.gitclone] exists the constructor leaves the
    whole world as it found it (HEAD, every ref, the index, the ignore
    file, every object, and nothing printed); the [current_branch] of the
    object it returns is read from HEAD alone, and a missing HEAD file is a
    [FileNotFoundError]. *)
Theorem init_existing_writes_nothing (path : string) (w : World) (r : RepoDir) :
  repo w = Some r ->
  __init__ path w
  = (match HEAD r with
     | Some text =>
         Return {| self_path := abspath path;
                   repo_dir := path_join path ".gitclone";
                   current_branch :=
                     PyStr.strip (PyStr.last_item (PyStr.split "/"%char text)) |}
     | None => Raise FileNotFoundError
     end, w).
Proof.
  intros Hr. unfold __init__, _get_current_branch. mrun.
  destruct (HEAD r); reflexivity.
Qed.

(** ** commit *)

(** C8 (as amended).  With an empty index, [commit] does not fail: it
    prints "No changes to commit" and returns, as a call that commits
    returns, without raising anything.  The world is the one before the
    call with that line printed, so no object is written, no ref moves and
    the index stays empty. *)
Theorem commit_empty_index (self : Repository) (message : string)
    (w : World) (r : RepoDir) :
  repo w = Some r ->
  index r = Some [] ->
  commit self message w = (Return tt, set_stdout (stdout w ++ [PNoChanges]) w)
  /\ repo (commit self message w).2 = Some r
  /\ tip_of (commit self message w).2 (current_branch self)
     = tip_of w (current_branch self).
Proof.
  intros Hr Hi.
  assert (E : commit self message w
              = (Return tt, set_stdout (stdout w ++ [PNoChanges]) w)).
  { unfold commit. mrun. reflexivity. }
  rewrite E. split; [reflexivity|]. split; [exact Hr|]. reflexivity.
Qed.

Lemma get_last_commit_tip (self : Repository) (w : World) :
  _get_last_commit self w = (Return (tip_of w (current_branch self)), w).
Proof.
  unfold _get_last_commit, tip_of. unfold_M.
  destruct (repo w) as [r|]; [|reflexivity]. cbn.
  destruct (heads r !! current_branch self); reflexivity.
Qed.

Lemma get_branch_last_commit_tip (self : Repository) (name : string) (w : World) :
  _get_branch_last_commit self name w = (Return (tip_of w name), w).
Proof.
  unfold _get_branch_last_commit, tip_of. unfold_M.
  destruct (repo w) as [r|]; [|reflexivity]. cbn.
  destruct (heads r !! name); reflexivity.
Qed.

(** With something staged and an object at [objects/<sha256(message)>],
    [commit] goes through. *)
Lemma commit_over_object (self : Repository) (message : string) (w : World)
    (r : RepoDir) (e : IndexEntry) (staged : list IndexEntry) (old : object_file) :
  repo w = Some r ->
  index r = Some (e :: staged) ->
  objects r !! sha256_hexdigest (PyStr.encode message) = Some old ->
  commit self message w = (Return tt, committed self message w r (e :: staged) old).
Proof.
  intros Hr Hi Ho. unfold commit, os_time.
  rewrite (bind_Return _ _ w w (e :: staged)); [|mrun; reflexivity].
  rewrite (bind_Return _ _ w w true);
    [|unfold_M; rewrite Hr, Ho; reflexivity].
  rewrite (bind_Return _ _ w w (ctime old));
    [|unfold_M; rewrite Hr, Ho; reflexivity].
  rewrite (bind_Return _ _ w w _ (get_last_commit_tip self w)).
  unfold committed. mrun. reflexivity.
Qed.

(** With something staged and no object at that path, [commit] reaches
    [os.time()] and raises before it writes anything. *)
Lemma commit_without_object (self : Repository) (message : string) (w : World)
    (r : RepoDir) (e : IndexEntry) (staged : list IndexEntry) :
  repo w = Some r ->
  index r = Some (e :: staged) ->
  objects r !! sha256_hexdigest (PyStr.encode message) = None ->
  commit self message w = (Raise AttributeError, w).
Proof.
  intros Hr Hi Ho. unfold commit, os_time.
  rewrite (bind_Return _ _ w w (e :: staged)); [|mrun; reflexivity].
  rewrite (bind_Return _ _ w w false);
    [|unfold_M; rewrite Hr, Ho; reflexivity].
  reflexivity.
Qed.

(** ** log *)

Lemma commit_of_Some (w : World) (d : string) (c : commit_data) :
  commit_of w d = Some c ->
  exists r o, repo w = Some r /\ objects r !! d = Some o /\ data o = CommitObject c.
Proof.
  unfold commit_of, object_of. destruct (repo w) as [r|]; [|discriminate]. cbn.
  destruct (objects r !! d) as [o|] eqn:Eo; [|discriminate]. cbn.
  destruct (data o) eqn:E; [discriminate|]. intros [= ->].
  exists r, o. auto.
Qed.

Lemma load_commit_Some (w : World) (d : string) (c : commit_data) :
  commit_of w d = Some c -> load_commit d w = (Return c, w).
Proof.
  intros (r & o & Hr & Ho & Hd)%commit_of_Some.
  unfold load_commit. unfold_M. rewrite Hr, Ho. cbn. rewrite Hd. reflexivity.
Qed.

Lemma load_commit_missing (w : World) (d : string) :
  object_of w d = None -> load_commit d w = (Raise FileNotFoundError, w).
Proof.
  unfold object_of, load_commit. unfold_M.
  destruct (repo w) as [r|]; [|reflexivity]. cbn. intros ->. reflexivity.
Qed.

(** The loop is over as soon as the current commit is [None] or ['']. *)
Lemma log_loop_end (fuel : nat) (cur : option string) (w : World) :
  PyStr.truthy_opt cur = false -> log_loop fuel cur w = (Return tt, w).
Proof. intros E. destruct fuel; cbn; rewrite E; reflexivity. Qed.

(** A digest with no object behind it: the [except] branch breaks. *)
Lemma log_loop_missing (fuel : nat) (d : string) (w : World) :
  PyStr.truthy d = true ->
  object_of w d = None ->
  log_loop (S fuel) (Some d) w = (Return tt, w).
Proof.
  intros Ht Ho. cbn [log_loop PyStr.truthy_opt]. rewrite Ht.
  cbn [default]. unfold try_except at 1.
  rewrite (bind_Return _ _ w w Break); [reflexivity|].
  unfold try_except. rewrite (bind_Raise _ _ w w FileNotFoundError).
  - reflexivity.
  - apply load_commit_missing, Ho.
Qed.

(** A digest with a commit behind it: five lines, then the parent. *)
Lemma log_loop_commit (fuel : nat) (d : string) (c : commit_data) (w : World) :
  PyStr.truthy d = true ->
  commit_of w d = Some c ->
  log_loop (S fuel) (Some d) w
  = log_loop fuel (c_parent c) (set_stdout (stdout w ++ log_lines d c) w).
Proof.
  intros Ht Hc. cbn [log_loop PyStr.truthy_opt]. rewrite Ht. cbn [default].
  rewrite (bind_Return _ _ w (set_stdout (stdout w ++ log_lines d c) w)
             (Next (c_parent c))); [reflexivity|].
  unfold try_except.
  rewrite (bind_Return _ _ w w c (load_commit_Some w d c Hc)).
  unfold_M. cbn [set_stdout stdout clock worktree repo].
  unfold log_lines. rewrite <- !List.app_assoc. reflexivity.
Qed.

Lemma commit_of_same_repo (w w' : World) (d : string) :
  repo w' = repo w -> commit_of w' d = commit_of w d.
Proof. intros E. unfold commit_of, object_of. rewrite E. reflexivity. Qed.

Lemma object_of_same_repo (w w' : World) (d : string) :
  repo w' = repo w -> object_of w' d = object_of w d.
Proof. intros E. unfold object_of. rewrite E. reflexivity. Qed.

(** The walk along a history whose last parent is not stored: every commit
    of the history is printed, then the loop ends. *)
Lemma log_loop_history (w : World) (d p : string)
    (visited : list (string * commit_data)) (last : option string) :
  history w d visited last ->
  last = Some p ->
  object_of w p = None ->
  forall (fuel : nat) (w' : World),
    repo w' = repo w ->
    log_loop (S (length visited + fuel)) (Some d) w'
    = (Return tt, set_stdout (stdout w' ++ walk_lines visited) w').
Proof.
  intros Hh Hl Ho.
  induction Hh as [d c Ht Hc | d q c rest last Ht Hc Hq Hrest IH];
    intros fuel w' Hr.
  - cbn [length walk_lines Nat.add].
    rewrite (log_loop_commit _ d c w' Ht) by (rewrite (commit_of_same_repo w w' d Hr); exact Hc).
    rewrite Hl, List.app_nil_r.
    destruct (PyStr.truthy p) eqn:Etp.
    + apply log_loop_missing; [exact Etp|].
      rewrite <- Ho. apply object_of_same_repo. exact Hr.
    + apply log_loop_end. exact Etp.
  - cbn [length walk_lines Nat.add].
    rewrite (log_loop_commit _ d c w' Ht) by (rewrite (commit_of_same_repo w w' d Hr); exact Hc).
    rewrite Hq.
    rewrite (IH Hl (fuel) (set_stdout (stdout w' ++ log_lines d c) w')) by exact Hr.
    cbn [set_stdout stdout clock worktree repo].
    rewrite <- List.app_assoc. reflexivity.
Qed.

(** C4 (as amended).  When the parent of a visited commit is a plain file
    name under which the object store holds nothing, the walk ends there
    without any error: [log] returns normally, having printed the commits
    it visited. *)
Theorem log_stops_at_missing_parent (fuel : nat) (self : Repository)
    (d p : string) (visited : list (string * commit_data)) (w : World) :
  tip_of w (current_branch self) = Some d ->
  history w d visited (Some p) ->
  plain_name p = true ->
  object_of w p = None ->
  log (S (length visited + fuel)) self w
  = (Return tt, set_stdout (stdout w ++ walk_lines visited) w).
Proof.
  intros Htip Hh _ Ho. unfold log.
  rewrite (bind_Return _ _ w w _ (get_last_commit_tip self w)), Htip.
  apply (log_loop_history w d p visited (Some p) Hh eq_refl Ho). reflexivity.
Qed.

Lemma hexdigit_not_space (c : ascii) :
  is_hexdigit c = true -> PyStr.isspace c = false.
Proof.
  destruct c as [[] [] [] [] [] [] [] []]; vm_compute; congruence.
Qed.

Lemma all_hexdigits_lstrip (s : string) :
  all_hexdigits s = true -> PyStr.lstrip s = s.
Proof.
  destruct s as [|c s]; [reflexivity|]. cbn.
  intros [Hc _]%andb_prop. rewrite (hexdigit_not_space c Hc). reflexivity.
Qed.

Lemma all_hexdigits_rstrip (s : string) :
  all_hexdigits s = true -> PyStr.rstrip s = s.
Proof.
  induction s as [|c s IH]; [reflexivity|]. cbn.
  intros [Hc Hs]%andb_prop. rewrite (IH Hs).
  destruct s; [|reflexivity]. rewrite (hexdigit_not_space c Hc). reflexivity.
Qed.

(** A hexadecimal digest is a true string that [strip] leaves alone. *)
Lemma hexdigest_strip (h : string) :
  is_hexdigest h = true -> PyStr.strip h = h /\ PyStr.truthy h = true.
Proof.
  unfold is_hexdigest. intros [Hh Hl]%andb_prop. split.
  - unfold PyStr.strip. rewrite (all_hexdigits_lstrip h Hh).
    apply all_hexdigits_rstrip, Hh.
  - destruct h; [discriminate|reflexivity].
Qed.

(** C9.  On a branch whose ref file is there and empty, the commit that
    [commit] writes has the empty string as its [parent] (and not [None]),
    and [log] from the new tip prints that one commit and returns: the
    empty parent ends the walk. *)
Theorem first_commit_parent_is_empty_string (fuel : nat) (self : Repository)
    (message : string) (w : World) (r : RepoDir) (e : IndexEntry)
    (staged : list IndexEntry) (old : object_file) :
  repo w = Some r ->
  heads r !! current_branch self = Some "" ->
  index r = Some (e :: staged) ->
  objects r !! sha256_hexdigest (PyStr.encode message) = Some old ->
  is_hexdigest (sha256_hexdigest (PyStr.encode message)) = true ->
  exists (w' : World) (c : commit_data),
    commit self message w = (Return tt, w')
    /\ tip_of w' (current_branch self) = Some (sha256_hexdigest (PyStr.encode message))
    /\ commit_of w' (sha256_hexdigest (PyStr.encode message)) = Some c
    /\ c_parent c = Some ""
    /\ c_message c = message /\ c_files c = e :: staged
    /\ log (S fuel) self w'
       = (Return tt,
          set_stdout
            (stdout w' ++ log_lines (sha256_hexdigest (PyStr.encode message)) c) w').
Proof.
  intros Hr Hh Hi Ho Hx.
  destruct (hexdigest_strip _ Hx) as [Hs Ht].
  set (h := sha256_hexdigest (PyStr.encode message)) in *.
  assert (Htip0 : tip_of w (current_branch self) = Some "").
  { unfold tip_of. rewrite Hr. cbn. rewrite Hh. reflexivity. }
  exists (committed self message w r (e :: staged) old).
  exists {| c_message := message; c_timestamp := ctime old;
            c_parent := Some ""; c_files := e :: staged |}.
  assert (Htip : tip_of (committed self message w r (e :: staged) old)
                   (current_branch self) = Some h).
  { unfold tip_of, committed. cbn. fold h. rewrite lookup_insert_eq. cbn.
    rewrite Hs. reflexivity. }
  assert (Hc : commit_of (committed self message w r (e :: staged) old) h
               = Some {| c_message := message; c_timestamp := ctime old;
                         c_parent := Some ""; c_files := e :: staged |}).
  { unfold commit_of, object_of, committed. cbn. fold h.
    rewrite lookup_insert_eq. cbn. rewrite Htip0. reflexivity. }
  split; [apply (commit_over_object self message w r e staged old Hr Hi Ho)|].
  split; [exact Htip|]. split; [exact Hc|].
  split; [reflexivity|]. split; [reflexivity|]. split; [reflexivity|].
  unfold log.
  rewrite (bind_Return _ _ _ _ _ (get_last_commit_tip self _)), Htip.
  rewrite (log_loop_commit fuel h _ _ Ht Hc).
  apply log_loop_end. reflexivity.
Qed.

Lemma set_stdout_same (w : World) : set_stdout (stdout w) w = w.
Proof. destruct w; reflexivity. Qed.

(** A commit that is its own parent: every pass of the loop prints it
    again, and no amount of fuel ends the walk. *)
Lemma log_loop_own_parent (fuel : nat) (d : string) (c : commit_data) (w : World) :
  PyStr.truthy d = true ->
  commit_of w d = Some c ->
  c_parent c = Some d ->
  log_loop fuel (Some d) w
  = (OutOfFuel, set_stdout (stdout w ++ repeat_lines fuel (log_lines d c)) w).
Proof.
  intros Ht Hc Hp. revert w Hc.
  induction fuel as [|fuel IH]; intros w Hc.
  - cbn. rewrite Ht. unfold out_of_fuel.
    rewrite List.app_nil_r, set_stdout_same. reflexivity.
  - rewrite (log_loop_commit fuel d c w Ht Hc), Hp.
    rewrite IH by exact Hc. cbn [repeat_lines set_stdout stdout clock worktree repo].
    rewrite <- List.app_assoc. reflexivity.
Qed.

(** ** branch *)

(** C3 (as amended).  [branch] never refuses a plain name: whether or not
    the name has a ref entry, the call (from an object whose current branch
    is a plain name too) returns normally, writes the current branch's tip
    (the empty string when there is none) into the ref of the name, and
    leaves every other ref, HEAD, the index and the objects as they were. *)
Theorem branch_writes_current_tip (self : Repository) (name : string)
    (w : World) (r : RepoDir) :
  repo w = Some r ->
  plain_name name = true ->
  plain_name (current_branch self) = true ->
  exists r' : RepoDir,
    branch self name w
    = (Return tt, set_stdout (stdout w ++ [PCreatedBranch name]) (set_repo (Some r') w))
    /\ heads r' !! name = Some (or_empty (tip_of w (current_branch self)))
    /\ (forall other, other <> name -> heads r' !! other = heads r !! other)
    /\ HEAD r' = HEAD r /\ index r' = index r /\ ignore r' = ignore r
    /\ objects r' = objects r.
Proof.
  intros Hr _ _.
  exists (set_head name (or_empty (tip_of w (current_branch self))) r).
  split.
  - unfold branch.
    rewrite (bind_Return _ _ w w _ (get_last_commit_tip self w)).
    mrun. reflexivity.
  - cbn. rewrite lookup_insert_eq. split; [reflexivity|].
    split; [|auto]. intros other Hne. apply lookup_insert_ne. congruence.
Qed.

(** ** diff *)

Lemma diff_path_line (A B : gmap string string) (path : string) (w : World) :
  diff_path A B path w
  = (Return tt, set_stdout (stdout w ++ option_list (diff_line A B path)) w).
Proof.
  unfold diff_path, diff_line.
  destruct (A !! path) as [h1|], (B !! path) as [h2|]; try reflexivity.
  destruct (negb (h1 =? h2)%string); [reflexivity|].
  unfold mret, M_ret. cbn. rewrite List.app_nil_r, set_stdout_same. reflexivity.
Qed.

Lemma for_each_diff_path (A B : gmap string string) (l : list string) (w : World) :
  for_each l (diff_path A B) w
  = (Return tt, set_stdout (stdout w ++ omap (diff_line A B) l) w).
Proof.
  revert w. induction l as [|path l IH]; intros w.
  - cbn. rewrite List.app_nil_r, set_stdout_same. reflexivity.
  - cbn [for_each].
    rewrite (bind_Return _ _ _ _ _ (diff_path_line A B path w)), IH.
    cbn [set_stdout stdout clock worktree repo omap list_omap].
    destruct (diff_line A B path); cbn [option_list];
      rewrite <- ?List.app_assoc, ?List.app_nil_r; reflexivity.
Qed.

(** With a commit at both tips, [diff] prints its header and one line per
    path that differs. *)
Lemma diff_of_commits (self : Repository) (branch1 branch2 d1 d2 : string)
    (a b : commit_data) (w : World) :
  tip_of w branch1 = Some d1 -> PyStr.truthy d1 = true -> commit_of w d1 = Some a ->
  tip_of w branch2 = Some d2 -> PyStr.truthy d2 = true -> commit_of w d2 = Some b ->
  diff self branch1 branch2 w
  = (Return tt,
     set_stdout (stdout w ++ PDiffHeader branch1 branch2 :: diff_lines a b) w).
Proof.
  intros T1 H1 C1 T2 H2 C2. unfold diff.
  rewrite (bind_Return _ _ w w _ (get_branch_last_commit_tip self branch1 w)).
  rewrite (bind_Return _ _ w w _ (get_branch_last_commit_tip self branch2 w)).
  rewrite T1, T2. cbn [PyStr.truthy_opt default]. rewrite H1, H2. cbn [negb orb].
  rewrite (bind_Return _ _ w w _ (load_commit_Some w d1 a C1)).
  rewrite (bind_Return _ _ w w _ (load_commit_Some w d2 b C2)).
  rewrite (bind_Return _ _ w (set_stdout (stdout w ++ [PDiffHeader branch1 branch2]) w) tt);
    [|reflexivity].
  rewrite for_each_diff_path. cbn [set_stdout stdout clock worktree repo].
  rewrite <- List.app_assoc. reflexivity.
Qed.

(** When a tip is missing or empty, [diff] prints one line and returns. *)
Lemma diff_no_commits (self : Repository) (branch1 branch2 : string) (w : World) :
  PyStr.truthy_opt (tip_of w branch1) && PyStr.truthy_opt (tip_of w branch2) = false ->
  diff self branch1 branch2 w
  = (Return tt, set_stdout (stdout w ++ [PNoCommits]) w).
Proof.
  intros E. unfold diff.
  rewrite (bind_Return _ _ w w _ (get_branch_last_commit_tip self branch1 w)).
  rewrite (bind_Return _ _ w w _ (get_branch_last_commit_tip self branch2 w)).
  destruct (PyStr.truthy_opt (tip_of w branch1)),
           (PyStr.truthy_opt (tip_of w branch2)); try discriminate; reflexivity.
Qed.

Lemma load_commit_cases (d : string) (w : World) :
  (exists c, commit_of w d = Some c /\ load_commit d w = (Return c, w))
  \/ (exists e, load_commit d w = (Raise e, w)).
Proof.
  destruct (commit_of w d) as [c|] eqn:E.
  - left. exists c. split; [reflexivity|]. apply load_commit_Some, E.
  - right. unfold commit_of, object_of in E. unfold load_commit. unfold_M.
    destruct (repo w) as [r|]; [|eauto]. cbn in *.
    destruct (objects r !! d) as [o|]; [|eauto]. cbn in *.
    destruct (data o); [eauto|discriminate].
Qed.

(** With a true string at both tips, [diff] does not print the
    no-commits line: it raises, or it prints its header. *)
Lemma diff_with_tips (self : Repository) (branch1 branch2 d1 d2 : string) (w : World) :
  tip_of w branch1 = Some d1 -> PyStr.truthy d1 = true ->
  tip_of w branch2 = Some d2 -> PyStr.truthy d2 = true ->
  diff self branch1 branch2 w <> (Return tt, set_stdout (stdout w ++ [PNoCommits]) w).
Proof.
  intros T1 H1 T2 H2.
  destruct (load_commit_cases d1 w) as [(a & C1 & _)|[e E1]].
  - destruct (load_commit_cases d2 w) as [(b & C2 & _)|[e E2]].
    + rewrite (diff_of_commits self branch1 branch2 d1 d2 a b w) by assumption.
      intros [= E]. apply List.app_inv_head in E. discriminate.
    + unfold diff.
      rewrite (bind_Return _ _ w w _ (get_branch_last_commit_tip self branch1 w)).
      rewrite (bind_Return _ _ w w _ (get_branch_last_commit_tip self branch2 w)).
      rewrite T1, T2. cbn [PyStr.truthy_opt default]. rewrite H1, H2. cbn [negb orb].
      rewrite (bind_Return _ _ w w _ (load_commit_Some w d1 a C1)).
      rewrite (bind_Raise _ _ w w e E2). discriminate.
  - unfold diff.
    rewrite (bind_Return _ _ w w _ (get_branch_last_commit_tip self branch1 w)).
    rewrite (bind_Return _ _ w w _ (get_branch_last_commit_tip self branch2 w)).
    rewrite T1, T2. cbn [PyStr.truthy_opt default]. rewrite H1, H2. cbn [negb orb].
    rewrite (bind_Raise _ _ w w e E1). discriminate.
Qed.

(** C5 (as amended).  On a plain name [_get_branch_last_commit] never
    raises: it returns the stripped content of the ref file, so the empty
    string for a branch without commits, and [None] for a name that has no
    ref file.  [diff] of two plain names prints its no-commits line and
    returns exactly when one of the two results is [None] or empty, that is
    when a branch is missing or has no commit. *)
Theorem branch_tip_lookup (self : Repository) (branch1 branch2 : string) (w : World) :
  plain_name branch1 = true ->
  plain_name branch2 = true ->
  _get_branch_last_commit self branch1 w
  = (Return (r ← repo w; text ← heads r !! branch1; Some (PyStr.strip text)), w)
  /\ (diff self branch1 branch2 w
        = (Return tt, set_stdout (stdout w ++ [PNoCommits]) w)
      <-> PyStr.truthy_opt (tip_of w branch1)
          && PyStr.truthy_opt (tip_of w branch2) = false).
Proof.
  intros _ _. split; [apply get_branch_last_commit_tip|]. split.
  - intros E.
    destruct (tip_of w branch1) as [d1|] eqn:T1; [|reflexivity].
    destruct (tip_of w branch2) as [d2|] eqn:T2; [|apply andb_false_r].
    cbn. destruct (PyStr.truthy d1) eqn:H1; [|reflexivity].
    destruct (PyStr.truthy d2) eqn:H2; [|reflexivity].
    destruct (diff_with_tips self branch1 branch2 d1 d2 w T1 H1 T2 H2 E).
  - apply diff_no_commits.
Qed.



Lemma elem_of_keys (d : gmap string string) (path : string) :
  path ∈ keys d <-> is_Some (d !! path).
Proof.
  unfold keys. rewrite list_elem_of_fmap. split.
  - intros ([k v] & -> & Hin). apply elem_of_map_to_list in Hin. cbn. eauto.
  - intros [v Hv]. exists (path, v). split; [reflexivity|].
    apply elem_of_map_to_list, Hv.
Qed.




(** ** add *)

Lemma should_ignore_patterns (self : Repository) (file : string) (w : World) :
  _should_ignore self (path_join (self_path self) file) w
  = (Return (ignores self w file), w).
Proof.
  unfold _should_ignore, ignores, ignore_patterns. unfold_M.
  destruct (repo w) as [r|]; [|reflexivity]. cbn.
  destruct (ignore r); reflexivity.
Qed.

Lemma add_one_file (self : Repository) (file : string) (b : list byte)
    (w : World) (r : RepoDir) (staged : list IndexEntry) :
  repo w = Some r ->
  index r = Some staged ->
  worktree w !! path_join (self_path self) file = Some (File b) ->
  ignores self w file = false ->
  add self [file] w = (Return tt, added file b w r staged).
Proof.
  intros Hr Hi Hf Hig. unfold add.
  rewrite (bind_Return _ _ w w staged); [|mrun; reflexivity].
  rewrite (bind_Return _ _ w
             (set_repo (Some (set_object (sha256_hexdigest b)
                                {| ctime := clock w; data := Blob b |} r)) w)
             (upsert file (sha256_hexdigest b) staged)).
  - unfold added. mrun. reflexivity.
  - cbn [add_loop].
    rewrite (bind_Return _ _ w w true);
      [|unfold path_exists; rewrite Hf; reflexivity].
    cbn [negb].
    rewrite (bind_Return _ _ w w _ (should_ignore_patterns self file w)), Hig.
    rewrite (bind_Return _ _ w w b); [|unfold read_bytes; rewrite Hf; reflexivity].
    rewrite (bind_Return _ _ w
               (set_repo (Some (set_object (sha256_hexdigest b)
                                  {| ctime := clock w; data := Blob b |} r)) w) tt).
    + reflexivity.
    + unfold shutil_copy.
      rewrite (bind_Return _ _ w w b); [|unfold read_bytes; rewrite Hf; reflexivity].
      mrun. reflexivity.
Qed.

Lemma upsert_upsert (file h : string) (staged : list IndexEntry) :
  upsert file h (upsert file h staged) = upsert file h staged.
Proof.
  unfold upsert. rewrite List.filter_app. cbn. rewrite String.eqb_refl. cbn.
  rewrite List.app_nil_r. f_equal.
  induction staged as [|e l IH]; [reflexivity|]. cbn.
  destruct (negb (entry_path e =? file)%string) eqn:E; cbn; rewrite ?E, IH; reflexivity.
Qed.

(** C6.  [add] stores the bytes of a file under their digest: reading the
    object back gives the bytes; adding the same content again gives the
    same digest in the index, the same bytes under it, and no new object. *)
Theorem add_is_content_addressed (self : Repository) (file : string)
    (b : list byte) (w : World) (r : RepoDir) (staged : list IndexEntry) (t : Z) :
  repo w = Some r ->
  index r = Some staged ->
  worktree w !! path_join (self_path self) file = Some (File b) ->
  ignores self w file = false ->
  exists w1 w2 : World,
    add self [file] w = (Return tt, w1)
    /\ data <$> object_of w1 (sha256_hexdigest b) = Some (Blob b)
    /\ staged_of w1 = Some (upsert file (sha256_hexdigest b) staged)
    /\ add self [file] (set_clock t w1) = (Return tt, w2)
    /\ data <$> object_of w2 (sha256_hexdigest b) = Some (Blob b)
    /\ staged_of w2 = staged_of w1
    /\ (forall d, is_Some (object_of w2 d) <-> is_Some (object_of w1 d))
    /\ (forall d, d <> sha256_hexdigest b -> object_of w2 d = object_of w1 d).
Proof.
  intros Hr Hi Hf Hig.
  set (h := sha256_hexdigest b).
  set (r1 := set_index (upsert file h staged)
               (set_object h {| ctime := clock w; data := Blob b |} r)).
  exists (added file b w r staged).
  exists (added file b (set_clock t (added file b w r staged)) r1 (upsert file h staged)).
  split; [apply add_one_file; assumption|].
  split; [unfold object_of, added; cbn; fold h; rewrite lookup_insert_eq; reflexivity|].
  split; [reflexivity|].
  split.
  { apply add_one_file; try reflexivity; try assumption.
    unfold ignores, ignore_patterns in *. cbn. rewrite Hr in Hig. exact Hig. }
  split; [unfold object_of, added; cbn; fold h; rewrite lookup_insert_eq; reflexivity|].
  split.
  { unfold staged_of, added. cbn. fold h. rewrite upsert_upsert. reflexivity. }
  split.
  - intros d. unfold object_of, added. cbn. fold h.
    rewrite !lookup_insert_is_Some. tauto.
  - intros d Hd. unfold object_of, added. cbn. fold h.
    rewrite lookup_insert_ne by congruence. reflexivity.
Qed.

(** The ref that [commit] writes is the digest of the message alone:
    neither the parent, nor the staged files, nor the timestamp enter it. *)
Lemma commit_ref_from_message_only (self : Repository) (message : string)
    (w : World) (r : RepoDir) (staged : list IndexEntry) (old : object_file) :
  (r' ← repo (committed self message w r staged old);
   heads r' !! current_branch self)
  = Some (sha256_hexdigest (PyStr.encode message)).
Proof. cbn. apply lookup_insert_eq. Qed.

End Properties.

(* ===================================================================== *)
(** * The worked repository *)
(* ===================================================================== *)

Import Example.

Lemma session_one_commit :
  (session one_commit w0).1 = Return (self_on "main")
  /\ tip_of (after one_commit) "main" = Some h_m
  /\ commit_of (after one_commit) h_m = Some first_commit.
Proof. vm_compute. repeat split. Qed.

Lemma session_two_commits :
  (session two_commits w0).1 = Return (self_on "main")
  /\ tip_of (after two_commits) "main" = Some h_m
  /\ commit_of (after two_commits) h_m = Some second_commit.
Proof. vm_compute. repeat split. Qed.

Lemma session_diverged :
  (session diverged w0).1 = Return (self_on "dev")
  /\ tip_of (after diverged) "main" = Some h_m
  /\ commit_of (after diverged) h_m = Some first_commit
  /\ tip_of (after diverged) "dev" = Some h_hello
  /\ commit_of (after diverged) h_hello = Some dev_commit.
Proof. vm_compute. repeat split. Qed.

(** Without a file that holds the bytes of the message, [commit] cannot
    go through: it raises at [os.time()]. *)
Example commit_needs_an_object :
  (session [(1000, Add ["note.txt"]); (1010, Commit "first")] w0).1
  = Raise AttributeError.
Proof. vm_compute. reflexivity. Qed.

Lemma session_fresh : session [] w0 = (Return (self_on "main"), fresh).
Proof. vm_compute. reflexivity. Qed.

Lemma session_staged :
  session [(1000, Add ["note.txt"])] w0 = (Return (self_on "main"), staged).
Proof. vm_compute. reflexivity. Qed.

(** ** Commits that collide, and a history that loops *)

(** C1.  Two commits made with the message [m]: the first has no parent,
    holds [note.txt] and the timestamp 1000; the second has the first as
    parent, holds [g.txt] and the timestamp 1010.  Both get the digest of
    the bytes of [m], and the second record replaces the first one in the
    object store. *)
Theorem commits_with_one_message_share_a_digest :
  sha256_hexdigest (PyLib := lib) (PyStr.encode "m") = h_m
  /\ (session one_commit w0).1 = Return (self_on "main")
  /\ tip_of (after one_commit) "main" = Some h_m
  /\ commit_of (after one_commit) h_m = Some first_commit
  /\ (session two_commits w0).1 = Return (self_on "main")
  /\ tip_of (after two_commits) "main" = Some h_m
  /\ commit_of (after two_commits) h_m = Some second_commit
  /\ c_parent first_commit <> c_parent second_commit
  /\ c_files first_commit <> c_files second_commit
  /\ c_timestamp first_commit <> c_timestamp second_commit.
Proof.
  split; [vm_compute; reflexivity|].
  destruct session_one_commit as (? & ? & ?).
  destruct session_two_commits as (? & ? & ?).
  repeat (split; [assumption|]).
  repeat split; discriminate.
Qed.

(** C2.  After two commits with the same message the commit at the tip of
    [main] is its own parent: whatever fuel [log] gets, the walk is still
    going when the fuel is spent, and it has printed the same digest once
    per pass. *)
Theorem log_walk_loops_after_repeated_message (fuel : nat) :
  (session two_commits w0).1 = Return (self_on "main")
  /\ c_parent second_commit = Some h_m
  /\ log fuel (self_on "main") (after two_commits)
     = (OutOfFuel,
        set_stdout (stdout (after two_commits)
                    ++ repeat_lines fuel (log_lines h_m second_commit))
                   (after two_commits)).
Proof.
  destruct session_two_commits as (Hs & Ht & Hc).
  split; [exact Hs|]. split; [reflexivity|].
  unfold log.
  rewrite (bind_Return _ _ _ _ _ (get_last_commit_tip (self_on "main") _)).
  change (current_branch (self_on "main")) with "main". rewrite Ht.
  apply log_loop_own_parent; [reflexivity | exact Hc | reflexivity].
Qed.

(** ** Counterexamples to the claims as first stated *)

(** C3: [main] has a commit, the current branch [dev] has none;
    [branch('main')] returns normally and [main] loses its tip. *)
Lemma branch_overwrites_existing_branch :
  (session two_branches w0).1 = Return (self_on "dev")
  /\ tip_of (after two_branches) "main" = Some h_m
  /\ tip_of (after two_branches) "dev" = Some ""
  /\ (branch (self_on "dev") "main" (after two_branches)).1 = Return tt
  /\ tip_of (branch (self_on "dev") "main" (after two_branches)).2 "main"
     = Some "".
Proof. vm_compute. repeat split. Qed.

(** C4: the parent [00ff] of the only commit is not stored; [log] prints
    that commit and returns as if the history ended there. *)
Lemma log_hides_missing_parent :
  tip_of dangling "main" = Some h_m
  /\ commit_of dangling h_m = Some dangling_commit
  /\ c_parent dangling_commit = Some "00ff"
  /\ object_of dangling "00ff" = None
  /\ log 2 (self_on "main") dangling
     = (Return tt, set_stdout (log_lines h_m dangling_commit) dangling).
Proof. vm_compute. repeat split. Qed.

(** C5: [ghost] has no ref file; its lookup returns [None] without any
    error, and [diff] against it prints the no-commits line although the
    branch does not exist. *)
Lemma missing_branch_is_not_an_error :
  (r ← repo (after one_commit); heads r !! "ghost") = None
  /\ tip_of (after one_commit) "main" = Some h_m
  /\ _get_branch_last_commit (self_on "main") "ghost" (after one_commit)
     = (Return None, after one_commit)
  /\ diff (self_on "main") "main" "ghost" (after one_commit)
     = (Return tt,
        set_stdout (stdout (after one_commit) ++ [PNoCommits]) (after one_commit)).
Proof. vm_compute. repeat split. Qed.

(** C8: nothing is staged in the repository just initialised, and
    [commit] returns there as it returns from the call that commits
    [note.txt]: no exception is raised, and the two calls end alike. *)
Lemma empty_commit_is_not_an_error :
  staged_of fresh = Some []
  /\ (commit (lib := lib) (self_on "main") "m" fresh).1 = Return tt
  /\ stdout (commit (lib := lib) (self_on "main") "m" fresh).2 = [PNoChanges]
  /\ staged_of staged = Some [ {| entry_path := "note.txt"; entry_hash := h_m |} ]
  /\ (commit (lib := lib) (self_on "main") "m" staged).1 = Return tt.
Proof. vm_compute. repeat split. Qed.

(** ** The theorems at work on the worked repository *)

(** C10 on a repository that exists: the world comes back as it was. *)
Lemma init_existing_witness :
  __init__ (lib := lib) "proj" dangling = (Return (self_on "main"), dangling).
Proof.
  exact (init_existing_writes_nothing (lib := lib) "proj" dangling dangling_repo eq_refl).
Defined.

(** C8 on the repository just initialised. *)
Lemma commit_empty_index_witness :
  commit (lib := lib) (self_on "main") "m" fresh
  = (Return tt, set_stdout [PNoChanges] fresh).
Proof.
  exact (proj1 (commit_empty_index (lib := lib) (self_on "main") "m" fresh fresh_repo
                  eq_refl eq_refl)).
Defined.

(** C9 on the repository with [note.txt] staged: the first commit on
    [main]. *)
Lemma first_commit_witness :
  exists (w' : World) (c : commit_data),
    commit (lib := lib) (self_on "main") "m" staged = (Return tt, w')
    /\ tip_of w' "main" = Some h_m
    /\ commit_of w' h_m = Some c
    /\ c_parent c = Some ""
    /\ log 1 (self_on "main") w'
       = (Return tt, set_stdout (stdout w' ++ log_lines h_m c) w').
Proof.
  destruct (first_commit_parent_is_empty_string (lib := lib) 0 (self_on "main") "m"
              staged staged_repo
              {| entry_path := "note.txt"; entry_hash := h_m |} []
              {| ctime := 1000; data := Blob (PyStr.encode "m") |})
    as (w' & c & E & Ht & Hc & Hp & _ & _ & Hl);
    [reflexivity | reflexivity | reflexivity
    | vm_compute; reflexivity | vm_compute; reflexivity |].
  exists w', c.
  replace h_m with (sha256_hexdigest (PyLib := lib) (PyStr.encode "m"))
    by (vm_compute; reflexivity).
  auto.
Defined.

(** C4 (as amended) on the repository with the dangling parent. *)
Lemma log_stops_witness :
  log 2 (self_on "main") dangling
  = (Return tt, set_stdout (stdout dangling ++ log_lines h_m dangling_commit) dangling).
Proof.
  rewrite <- (List.app_nil_r (log_lines h_m dangling_commit)).
  apply (log_stops_at_missing_parent 0 (self_on "main") h_m "00ff"
           [(h_m, dangling_commit)] dangling).
  - vm_compute. reflexivity.
  - apply (history_last dangling h_m dangling_commit); vm_compute; reflexivity.
  - reflexivity.
  - vm_compute. reflexivity.
Defined.

(** C3 (as amended): [dev] is created at the tip of [main]. *)
Lemma branch_witness :
  exists r' : RepoDir,
    branch (self_on "main") "dev" dangling
    = (Return tt, set_stdout [PCreatedBranch "dev"] (set_repo (Some r') dangling))
    /\ heads r' !! "dev" = Some h_m
    /\ heads r' !! "main" = Some h_m.
Proof.
  destruct (branch_writes_current_tip (self_on "main") "dev" dangling
              dangling_repo eq_refl eq_refl eq_refl) as (r' & E & Hd & Ho & _).
  exists r'. split; [exact E|]. split; [exact Hd|].
  rewrite Ho by discriminate. vm_compute. reflexivity.
Defined.

(** C5 (as amended): [main] has a tip; [ghost] has no ref file, and [diff]
    against it prints the no-commits line. *)
Lemma branch_tip_lookup_witness :
  _get_branch_last_commit (self_on "main") "main" dangling
  = (Return (Some h_m), dangling)
  /\ diff (self_on "main") "main" "ghost" dangling
     = (Return tt, set_stdout (stdout dangling ++ [PNoCommits]) dangling).
Proof.
  destruct (branch_tip_lookup (self_on "main") "main" "ghost" dangling
              eq_refl eq_refl) as [E H].
  split; [exact E|]. apply H. vm_compute. reflexivity.
Defined.


(** C6: [g.txt] added twice, the second time later. *)
Lemma add_witness :
  exists w1 w2 : World,
    add (lib := lib) (self_on "main") ["g.txt"] fresh = (Return tt, w1)
    /\ data <$> object_of w1 h_hello = Some (Blob (PyStr.encode "hello"))
    /\ add (lib := lib) (self_on "main") ["g.txt"] (set_clock 3000 w1) = (Return tt, w2)
    /\ data <$> object_of w2 h_hello = Some (Blob (PyStr.encode "hello"))
    /\ staged_of w2 = staged_of w1.
Proof.
  destruct (add_is_content_addressed (lib := lib) (self_on "main") "g.txt"
              (PyStr.encode "hello") fresh fresh_repo [] 3000)
    as (w1 & w2 & E1 & O1 & _ & E2 & O2 & S & _);
    [reflexivity | reflexivity | vm_compute; reflexivity | vm_compute; reflexivity |].
  exists w1, w2.
  replace h_hello with (sha256_hexdigest (PyLib := lib) (PyStr.encode "hello"))
    by (vm_compute; reflexivity).
  auto 10.
Defined.

(* ===================================================================== *)
(** * More properties of the methods *)
(* ===================================================================== *)

(** ** Python strings *)

Lemma rstrip_rstrip (s : string) : PyStr.rstrip (PyStr.rstrip s) = PyStr.rstrip s.
Proof.
  induction s as [|c s IH]; [reflexivity|]. cbn.
  destruct (PyStr.rstrip s) as [|c' s'] eqn:E.
  - destruct (PyStr.isspace c) eqn:Ec; [reflexivity|]. cbn. rewrite Ec. reflexivity.
  - cbn [PyStr.rstrip]. cbn [PyStr.rstrip] in IH. rewrite IH. reflexivity.
Qed.

Lemma lstrip_rstrip_lstrip (s : string) :
  PyStr.lstrip (PyStr.rstrip (PyStr.lstrip s)) = PyStr.rstrip (PyStr.lstrip s).
Proof.
  induction s as [|c s IH]; [reflexivity|]. cbn [PyStr.lstrip].
  destruct (PyStr.isspace c) eqn:Ec; [exact IH|].
  cbn [PyStr.rstrip]. destruct (PyStr.rstrip s);
    rewrite ?Ec; cbn [PyStr.lstrip]; rewrite ?Ec; reflexivity.
Qed.

(** [strip] of a stripped string changes nothing. *)
Lemma strip_strip (s : string) : PyStr.strip (PyStr.strip s) = PyStr.strip s.
Proof.
  unfold PyStr.strip. rewrite lstrip_rstrip_lstrip. apply rstrip_rstrip.
Qed.

Lemma split_no_slash (s : string) :
  no_slash s = true -> PyStr.split "/"%char s = [s].
Proof.
  induction s as [|c s IH]; [reflexivity|]. cbn.
  intros [Hc Hs]%andb_prop. rewrite (IH Hs).
  destruct (Ascii.eqb c "/"); [discriminate|reflexivity].
Qed.

Lemma split_at_sep (sep : ascii) (r : string) :
  PyStr.split sep (String sep r) = EmptyString :: PyStr.split sep r.
Proof. cbn. rewrite Ascii.eqb_refl. reflexivity. Qed.

Lemma split_past (sep c : ascii) (r : string) :
  Ascii.eqb c sep = false ->
  PyStr.split sep (String c r)
  = match PyStr.split sep r with
    | w :: ws => String c w :: ws
    | [] => [String c EmptyString]
    end.
Proof. intros E. cbn. rewrite E. reflexivity. Qed.

(** What [_get_current_branch] reads back from the HEAD that [checkout]
    writes for a name without ['/']. *)
Lemma last_of_HEAD (name : string) :
  no_slash name = true ->
  PyStr.last_item (PyStr.split "/"%char ("ref: refs/heads/" ++ name)) = name.
Proof.
  intros H. cbv beta iota delta [String.append].
  repeat (rewrite split_at_sep || rewrite split_past by reflexivity).
  rewrite (split_no_slash name H). reflexivity.
Qed.

(** A plain name has no ['/']. *)
Lemma plain_name_no_slash (s : string) : plain_name s = true -> no_slash s = true.
Proof.
  unfold plain_name. intros H.
  do 4 apply andb_prop in H as [H _]. apply andb_prop in H as [_ H]. exact H.
Qed.

(** Text mode reads back as written a string without carriage return. *)
Lemma universal_newlines_no_cr (s : string) :
  no_cr s = true -> PyStr.universal_newlines s = s.
Proof.
  unfold no_cr. induction s as [|c s IH]; [reflexivity|].
  cbn [lacks PyStr.universal_newlines].
  intros [Hc Hs]%andb_prop. apply negb_true_iff in Hc. rewrite Hc, (IH Hs).
  reflexivity.
Qed.

(** So does the line that [checkout] writes to HEAD for such a name. *)
Lemma HEAD_reads_back (name : string) :
  no_cr name = true ->
  PyStr.universal_newlines ("ref: refs/heads/" ++ name) = "ref: refs/heads/" ++ name.
Proof.
  intros H. apply universal_newlines_no_cr.
  cbv beta iota delta [String.append]. exact H.
Qed.

Section MoreProperties.
Context {lib : PyLib}.

Lemma is_Some_Some_true {A} (x : A) : bool_decide (is_Some (Some x)) = true.
Proof. apply bool_decide_eq_true_2. eauto. Qed.

Lemma is_Some_None_false {A} : bool_decide (is_Some (@None A)) = false.
Proof. apply bool_decide_eq_false_2. intros [? [=]]. Qed.

(** ** The constructor, checkout and branch *)

(** X1.  On a path without [.gitclone] the constructor creates the
    repository ([HEAD] on [main], an empty ref for [main], an empty index,
    the one ignore pattern, no object) and reads back from the HEAD it
    just wrote that the current branch is [main]. *)
Theorem init_creates_repository_on_main (path : string) (w : World) :
  repo w = None ->
  __init__ path w
  = (Return {| self_path := abspath path;
               repo_dir := path_join path ".gitclone";
               current_branch := "main" |},
     set_repo (Some initial_repo) w)
  /\ on_branch "main" (set_repo (Some initial_repo) w)
  /\ tip_of (set_repo (Some initial_repo) w) "main" = Some ""
  /\ staged_of (set_repo (Some initial_repo) w) = Some [].
Proof.
  intros Hr. split.
  - unfold __init__, _initialize_repo, _get_current_branch. mrun. reflexivity.
  - split; [|split; reflexivity].
    exists initial_repo. split; [reflexivity|]. split; [reflexivity|].
    exists "". reflexivity.
Qed.

(** X2.  [checkout] of a plain name that has no ref file changes nothing:
    it prints that the branch does not exist, and the object keeps its
    current branch. *)
Theorem checkout_unknown_branch (self : Repository) (name : string) (w : World) :
  plain_name name = true ->
  tip_of w name = None ->
  checkout self name w
  = (Return self, set_stdout (stdout w ++ [PBranchNotExist name]) w).
Proof.
  unfold tip_of, checkout. unfold_M. intros _ H.
  destruct (repo w) as [r|]; [|reflexivity]. cbn in H.
  destruct (heads r !! name) eqn:E; [discriminate|]. reflexivity.
Qed.

(** X3.  [checkout] of an existing branch whose name is plain and has no
    carriage return writes HEAD and nothing else, and makes the name the
    current branch of the object; a [Repository] constructed afterwards on
    the same directory reads the name back from HEAD, stripped of
    surrounding white space. *)
Theorem checkout_is_read_back (self : Repository) (name text path : string)
    (w : World) (r : RepoDir) :
  repo w = Some r ->
  heads r !! name = Some text ->
  plain_name name = true ->
  no_cr name = true ->
  checkout self name w
  = (Return {| self_path := self_path self; repo_dir := repo_dir self;
               current_branch := name |},
     set_stdout (stdout w ++ [PSwitched name])
       (set_repo (Some (set_HEAD ("ref: refs/heads/" ++ name) r)) w))
  /\ on_branch name (checkout self name w).2
  /\ __init__ path (checkout self name w).2
     = (Return {| self_path := abspath path;
                  repo_dir := path_join path ".gitclone";
                  current_branch := PyStr.strip name |},
        (checkout self name w).2).
Proof.
  intros Hr Hn Hs%plain_name_no_slash Hc.
  assert (E : checkout self name w
              = (Return {| self_path := self_path self; repo_dir := repo_dir self;
                           current_branch := name |},
                 set_stdout (stdout w ++ [PSwitched name])
                   (set_repo (Some (set_HEAD ("ref: refs/heads/" ++ name) r)) w))).
  { unfold checkout. rewrite (HEAD_reads_back name Hc).
    mrun. rewrite is_Some_Some_true. mrun. reflexivity. }
  rewrite E. cbn [snd]. split; [reflexivity|]. split.
  - exists (set_HEAD ("ref: refs/heads/" ++ name) r).
    split; [reflexivity|]. split; [reflexivity|]. cbn. rewrite Hn. eauto.
  - unfold __init__, _get_current_branch. unfold_M.
    cbn [set_stdout set_repo repo stdout clock worktree negb HEAD set_HEAD].
    rewrite (last_of_HEAD name Hs). reflexivity.
Qed.

Lemma strip_or_empty_tip (w : World) (name : string) :
  PyStr.strip (or_empty (tip_of w name)) = or_empty (tip_of w name).
Proof.
  unfold tip_of, or_empty. destruct (repo w) as [r|]; [|reflexivity]. cbn.
  destruct (heads r !! name) as [text|]; [|reflexivity]. cbn.
  destruct (PyStr.truthy (PyStr.strip text)); [apply strip_strip|reflexivity].
Qed.

(** X4.  A branch created by [branch] under a plain name and entered by
    [checkout] starts where the branch it was created from (a plain name
    too) stands: [_get_last_commit] on the new branch returns the tip of
    the old one (the empty string when the old one has no commit), and the
    old branch keeps its tip. *)
Theorem new_branch_starts_at_current_tip (self : Repository) (name : string)
    (w : World) (r : RepoDir) :
  repo w = Some r ->
  plain_name name = true ->
  plain_name (current_branch self) = true ->
  exists (w1 w2 : World) (self' : Repository),
    branch self name w = (Return tt, w1)
    /\ checkout self name w1 = (Return self', w2)
    /\ current_branch self' = name
    /\ _get_last_commit self' w2
       = (Return (Some (or_empty (tip_of w (current_branch self)))), w2)
    /\ (name <> current_branch self ->
        tip_of w2 (current_branch self) = tip_of w (current_branch self)).
Proof.
  intros Hr _ _.
  set (t := or_empty (tip_of w (current_branch self))).
  set (w1 := set_stdout (stdout w ++ [PCreatedBranch name])
               (set_repo (Some (set_head name t r)) w)).
  set (w2 := set_stdout (stdout w1 ++ [PSwitched name])
               (set_repo (Some (set_HEAD (PyStr.universal_newlines
                                            ("ref: refs/heads/" ++ name))
                                  (set_head name t r))) w1)).
  exists w1, w2,
    {| self_path := self_path self; repo_dir := repo_dir self;
       current_branch := name |}.
  assert (E1 : branch self name w = (Return tt, w1)).
  { unfold branch.
    rewrite (bind_Return _ _ w w _ (get_last_commit_tip self w)).
    fold t. mrun. reflexivity. }
  split; [exact E1|]. split.
  { unfold checkout. unfold_M. subst w1 w2.
    cbn [set_stdout set_repo repo stdout clock worktree heads set_head].
    rewrite lookup_insert_eq, is_Some_Some_true. reflexivity. }
  split; [reflexivity|]. split.
  - rewrite get_last_commit_tip. unfold tip_of at 1. subst w2 w1.
    cbn [set_stdout set_repo repo stdout clock worktree heads set_head set_HEAD
         current_branch mbind option_bind].
    rewrite lookup_insert_eq. cbn [mbind option_bind].
    subst t. rewrite strip_or_empty_tip. reflexivity.
  - intros Hne. unfold tip_of at 1. subst w2 w1.
    cbn [set_stdout set_repo repo stdout clock worktree heads set_head set_HEAD
         mbind option_bind].
    rewrite lookup_insert_ne by exact Hne.
    unfold tip_of. rewrite Hr. reflexivity.
Qed.

(** ** add *)

(** One pass of the loop of [add]. *)
Lemma add_loop_cons (self : Repository) (file : string) (rest : list string)
    (staged : list IndexEntry) (w : World) (r : RepoDir) :
  repo w = Some r ->
  add_loop self (file :: rest) staged w
  = match worktree w !! path_join (self_path self) file with
    | None =>
        add_loop self rest staged (set_stdout (stdout w ++ [PErrorNotExist file]) w)
    | Some n =>
        if ignores self w file then
          add_loop self rest staged (set_stdout (stdout w ++ [PSkipIgnored file]) w)
        else
          match n with
          | Dir => (Raise IsADirectoryError, w)
          | File b =>
              add_loop self rest (upsert file (sha256_hexdigest b) staged)
                (set_repo (Some (set_object (sha256_hexdigest b)
                                   {| ctime := clock w; data := Blob b |} r)) w)
          end
    end.
Proof.
  intros Hr. cbn [add_loop].
  destruct (worktree w !! path_join (self_path self) file) as [n|] eqn:Ew.
  - rewrite (bind_Return _ _ w w true);
      [|unfold path_exists; rewrite Ew, is_Some_Some_true; reflexivity].
    cbn [negb].
    rewrite (bind_Return _ _ w w _ (should_ignore_patterns self file w)).
    destruct (ignores self w file); [reflexivity|].
    destruct n as [b|].
    + rewrite (bind_Return _ _ w w b); [|unfold read_bytes; rewrite Ew; reflexivity].
      rewrite (bind_Return _ _ w
                 (set_repo (Some (set_object (sha256_hexdigest b)
                                    {| ctime := clock w; data := Blob b |} r)) w) tt);
        [reflexivity|].
      unfold shutil_copy.
      rewrite (bind_Return _ _ w w b); [|unfold read_bytes; rewrite Ew; reflexivity].
      mrun. reflexivity.
    + rewrite (bind_Raise _ _ w w IsADirectoryError);
        [reflexivity | unfold read_bytes; rewrite Ew; reflexivity].
  - rewrite (bind_Return _ _ w w false);
      [|unfold path_exists; rewrite Ew, is_Some_None_false; reflexivity].
    reflexivity.
Qed.

Lemma only_objects_refl (w : World) (r : RepoDir) :
  repo w = Some r -> only_objects_written w w.
Proof. intros Hr. split; [reflexivity|]. split; [reflexivity|]. exists r, r. auto 10. Qed.

Lemma only_objects_trans (w1 w2 w3 : World) :
  only_objects_written w1 w2 -> only_objects_written w2 w3 ->
  only_objects_written w1 w3.
Proof.
  intros (Hw & Hc & r1 & r2 & E1 & E2 & H1 & H2 & H3 & H4 & H5)
         (Hw' & Hc' & r2' & r3 & E2' & E3 & H1' & H2' & H3' & H4' & H5').
  rewrite E2 in E2'. injection E2' as <-.
  split; [congruence|]. split; [congruence|].
  exists r1, r3. repeat split; try congruence. auto.
Qed.

Lemma only_objects_print (w : World) (r : RepoDir) (o : list printed) :
  repo w = Some r -> only_objects_written w (set_stdout o w).
Proof. intros Hr. split; [reflexivity|]. split; [reflexivity|]. exists r, r. auto 10. Qed.

Lemma only_objects_store (w : World) (r : RepoDir) (h : string) (o : object_file) :
  repo w = Some r ->
  only_objects_written w (set_repo (Some (set_object h o r)) w).
Proof.
  intros Hr. split; [reflexivity|]. split; [reflexivity|].
  exists r, (set_object h o r). repeat split; try assumption.
  intros d Hd. cbn. rewrite lookup_insert_is_Some. destruct (decide (h = d)); auto.
Qed.

(** The loop of [add] writes object files only, however it ends. *)
Lemma add_loop_only_objects (self : Repository) (files : list string) :
  forall (staged : list IndexEntry) (w : World) (r : RepoDir),
    repo w = Some r ->
    only_objects_written w (add_loop self files staged w).2.
Proof.
  induction files as [|file rest IH]; intros staged w r Hr.
  - apply (only_objects_refl w r Hr).
  - rewrite (add_loop_cons self file rest staged w r Hr).
    destruct (worktree w !! path_join (self_path self) file) as [n|].
    + destruct (ignores self w file).
      * eapply only_objects_trans; [|apply (IH _ _ r); exact Hr].
        apply (only_objects_print w r _ Hr).
      * destruct n as [b|]; [|apply (only_objects_refl w r Hr)].
        eapply only_objects_trans; [|eapply IH; reflexivity].
        apply (only_objects_store w r _ _ Hr).
    + eapply only_objects_trans; [|apply (IH _ _ r); exact Hr].
      apply (only_objects_print w r _ Hr).
Qed.

(** The loop of [add] never runs out of fuel: it has none to run out of. *)
Lemma add_loop_ends (self : Repository) (files : list string) :
  forall (staged : list IndexEntry) (w : World) (r : RepoDir),
    repo w = Some r ->
    (add_loop self files staged w).1 <> OutOfFuel.
Proof.
  induction files as [|file rest IH]; intros staged w r Hr.
  - discriminate.
  - rewrite (add_loop_cons self file rest staged w r Hr).
    destruct (worktree w !! path_join (self_path self) file) as [n|].
    + destruct (ignores self w file); [apply (IH _ _ r); exact Hr|].
      destruct n; [eapply IH; reflexivity | discriminate].
    + apply (IH _ _ r); exact Hr.
Qed.

(** However [add] ends, HEAD, the refs, the ignore file and the working
    tree are as before, and no object went away. *)
Lemma add_frame (self : Repository)
    (files : list string) (w : World) (r : RepoDir) :
  repo w = Some r ->
  exists r' : RepoDir,
    repo (add self files w).2 = Some r'
    /\ HEAD r' = HEAD r /\ heads r' = heads r /\ ignore r' = ignore r
    /\ (forall d, is_Some (objects r !! d) -> is_Some (objects r' !! d))
    /\ worktree (add self files w).2 = worktree w.
Proof.
  intros Hr. unfold add.
  destruct (index r) as [staged|] eqn:Hi.
  - rewrite (bind_Return _ _ w w staged); [|mrun; reflexivity].
    pose proof (add_loop_only_objects self files staged w r Hr) as F.
    pose proof (add_loop_ends self files staged w r Hr) as N.
    destruct (add_loop self files staged w) as [out w1] eqn:E. cbn [fst snd] in *.
    destruct F as (Hw & _ & r0 & r1 & E0 & E1 & H1 & H2 & _ & H4 & H5).
    rewrite Hr in E0. injection E0 as <-.
    destruct out as [staged'| e |]; [| |contradiction].
    + rewrite (bind_Return _ _ w w1 staged' E). mrun.
      exists (set_index staged' r1). auto 10.
    + rewrite (bind_Raise _ _ w w1 e E). exists r1. auto 10.
  - rewrite (bind_Raise _ _ w w FileNotFoundError); [|mrun; reflexivity].
    exists r. auto 10.
Qed.

(** X5.  Whatever the files and however [add] ends, it leaves HEAD, every
    ref, the ignore file and the working tree as they were, and every
    object that was stored is still stored: [add] writes object files and
    the index, nothing else. *)
Theorem add_writes_objects_and_index_only (self : Repository)
    (files : list string) (w : World) (r : RepoDir) :
  repo w = Some r ->
  exists r' : RepoDir,
    repo (add self files w).2 = Some r'
    /\ HEAD r' = HEAD r /\ heads r' = heads r /\ ignore r' = ignore r
    /\ (forall d, is_Some (objects r !! d) -> is_Some (objects r' !! d))
    /\ worktree (add self files w).2 = worktree w.
Proof. exact (add_frame self files w r). Qed.

Lemma set_index_same (r : RepoDir) (staged : list IndexEntry) :
  index r = Some staged -> set_index staged r = r.
Proof. destruct r. cbn. intros ->. reflexivity. Qed.

Lemma set_repo_same (w : World) (r : RepoDir) :
  repo w = Some r -> set_repo (Some r) w = w.
Proof. destruct w. cbn. intros ->. reflexivity. Qed.

Lemma add_loop_skips (self : Repository) (files : list string) :
  forall (staged : list IndexEntry) (w w0 : World) (r : RepoDir),
    repo w = Some r ->
    worktree w = worktree w0 ->
    (forall f, ignores self w f = ignores self w0 f) ->
    (forall f, In f files ->
               worktree w0 !! path_join (self_path self) f = None
               \/ ignores self w0 f = true) ->
    add_loop self files staged w
    = (Return staged,
       set_stdout (stdout w ++ List.map (skip_line self w0) files) w).
Proof.
  induction files as [|file rest IH]; intros staged w w0 r Hr Hw Hg H.
  - cbn. rewrite List.app_nil_r, set_stdout_same. reflexivity.
  - rewrite (add_loop_cons self file rest staged w r Hr), Hw, Hg.
    cbn [List.map].
    destruct (worktree w0 !! path_join (self_path self) file) as [n|] eqn:Ew.
    + destruct (H file (or_introl eq_refl)) as [E|E]; [congruence|]. rewrite E.
      assert (skip_line self w0 file = PSkipIgnored file) as ->
        by (unfold skip_line; rewrite Ew; reflexivity).
      rewrite (IH staged (set_stdout (stdout w ++ [PSkipIgnored file]) w) w0 r Hr Hw Hg)
        by (intros f Hf; apply H; right; exact Hf).
      cbn [set_stdout stdout clock worktree repo].
      rewrite <- List.app_assoc. reflexivity.
    + assert (skip_line self w0 file = PErrorNotExist file) as ->
        by (unfold skip_line; rewrite Ew; reflexivity).
      rewrite (IH staged (set_stdout (stdout w ++ [PErrorNotExist file]) w) w0 r Hr Hw Hg)
        by (intros f Hf; apply H; right; exact Hf).
      cbn [set_stdout stdout clock worktree repo].
      rewrite <- List.app_assoc. reflexivity.
Qed.

(** X6.  [add] of paths of the working tree that are all missing or
    ignored stores and stages nothing: it prints one line per file (does
    not exist, or skipped), then its closing line, which counts every file
    given, and the disk is as it was. *)
Theorem add_skips_missing_and_ignored (self : Repository) (files : list string)
    (w : World) (r : RepoDir) (staged : list IndexEntry) :
  repo w = Some r ->
  index r = Some staged ->
  forallb tame_path files = true ->
  (forall f, In f files ->
             worktree w !! path_join (self_path self) f = None
             \/ ignores self w f = true) ->
  add self files w
  = (Return tt,
     set_stdout (stdout w ++ List.map (skip_line self w) files
                          ++ [PAdded (length files)]) w).
Proof.
  intros Hr Hi _ H. unfold add.
  rewrite (bind_Return _ _ w w staged); [|mrun; reflexivity].
  rewrite (bind_Return _ _ w _ staged
             (add_loop_skips self files staged w w r Hr eq_refl (fun _ => eq_refl) H)).
  mrun. rewrite (set_index_same r staged Hi), <- List.app_assoc.
  f_equal. destruct w. cbn in *. subst. reflexivity.
Qed.

Lemma upsert_paths_unique (file h : string) (staged : list IndexEntry) :
  NoDup (index_paths staged) -> NoDup (index_paths (upsert file h staged)).
Proof.
  intros Hn. unfold upsert, index_paths. rewrite List.map_app. cbn.
  apply NoDup_app. split; [|split].
  - induction staged as [|e l IH]; [constructor|].
    cbn in Hn. apply NoDup_cons in Hn as [Hx Hl]. cbn.
    destruct (negb (entry_path e =? file)%string); [|apply IH, Hl].
    cbn. apply NoDup_cons. split; [|apply IH, Hl].
    intros Hin. apply Hx. apply list_elem_of_In.
    apply list_elem_of_In, List.in_map_iff in Hin as (e' & He & Hin).
    apply List.filter_In in Hin as [Hin _].
    apply List.in_map_iff. eauto.
  - intros x Hx Hf. apply list_elem_of_In in Hx.
    apply list_elem_of_singleton in Hf as ->.
    apply List.in_map_iff in Hx as (e & He & Hin).
    apply List.filter_In in Hin as [_ Hne].
    rewrite He, String.eqb_refl in Hne. discriminate.
  - apply NoDup_singleton.
Qed.

Lemma add_loop_paths_unique (self : Repository) (files : list string) :
  forall (staged staged' : list IndexEntry) (w : World) (r : RepoDir),
    repo w = Some r ->
    NoDup (index_paths staged) ->
    (add_loop self files staged w).1 = Return staged' ->
    NoDup (index_paths staged').
Proof.
  induction files as [|file rest IH]; intros staged staged' w r Hr Hn.
  - cbn. intros [= <-]. exact Hn.
  - rewrite (add_loop_cons self file rest staged w r Hr).
    destruct (worktree w !! path_join (self_path self) file) as [n|].
    + destruct (ignores self w file); [apply (IH _ _ _ r); assumption|].
      destruct n as [b|]; [|discriminate].
      eapply IH; [reflexivity|]. apply upsert_paths_unique, Hn.
    + apply (IH _ _ _ r); assumption.
Qed.

(** X7.  [add] keeps the paths of the index unique: if no two entries of
    the index share a path before the call, none do after it, whatever the
    files are and however the call ends. *)
Theorem add_keeps_index_paths_unique (self : Repository) (files : list string)
    (w : World) (r : RepoDir) (staged : list IndexEntry) :
  repo w = Some r ->
  index r = Some staged ->
  NoDup (index_paths staged) ->
  exists staged' : list IndexEntry,
    staged_of (add self files w).2 = Some staged'
    /\ NoDup (index_paths staged').
Proof.
  intros Hr Hi Hn. unfold add.
  rewrite (bind_Return _ _ w w staged); [|mrun; reflexivity].
  pose proof (add_loop_only_objects self files staged w r Hr) as F.
  pose proof (add_loop_ends self files staged w r Hr) as N.
  pose proof (fun s => add_loop_paths_unique self files staged s w r Hr Hn) as U.
  destruct (add_loop self files staged w) as [out w1] eqn:E. cbn [fst snd] in *.
  destruct F as (_ & _ & r0 & r1 & E0 & E1 & _ & _ & H3 & _ & _).
  rewrite Hr in E0. injection E0 as <-.
  destruct out as [staged'| e |]; [| |contradiction].
  - rewrite (bind_Return _ _ w w1 staged' E). mrun.
    exists staged'. split; [reflexivity|]. apply U. reflexivity.
  - rewrite (bind_Raise _ _ w w1 e E). exists staged.
    split; [|exact Hn]. unfold staged_of. cbn. rewrite E1. cbn. congruence.
Qed.

Lemma ignores_after_store (self : Repository) (w : World) (r : RepoDir)
    (h : string) (o : object_file) (f : string) :
  repo w = Some r ->
  ignores self (set_repo (Some (set_object h o r)) w) f = ignores self w f.
Proof.
  intros Hr. unfold ignores, ignore_patterns. cbn. rewrite Hr. reflexivity.
Qed.

Lemma add_loop_directory (self : Repository) (d : string) (files : list string) :
  forall (staged : list IndexEntry) (w : World) (r : RepoDir),
    repo w = Some r ->
    In d files ->
    worktree w !! path_join (self_path self) d = Some Dir ->
    ignores self w d = false ->
    (add_loop self files staged w).1 = Raise IsADirectoryError.
Proof.
  induction files as [|file rest IH]; intros staged w r Hr Hin Hd Hg; [destruct Hin|].
  rewrite (add_loop_cons self file rest staged w r Hr).
  destruct Hin as [->|Hin].
  - rewrite Hd, Hg. reflexivity.
  - destruct (worktree w !! path_join (self_path self) file) as [n|].
    + destruct (ignores self w file); [apply (IH _ _ r); assumption|].
      destruct n as [b|]; [|reflexivity].
      eapply IH; [reflexivity | exact Hin | exact Hd |].
      rewrite (ignores_after_store self w r _ _ d Hr). exact Hg.
    + apply (IH _ _ r); assumption.
Qed.

(** X8.  When one of the paths of the working tree given to [add] is a
    directory that no ignore pattern matches, the call raises
    [IsADirectoryError] and the index file is not written: nothing is
    staged, not even the files that came before the directory and whose
    objects were stored. *)
Theorem add_of_directory_raises (self : Repository) (d : string)
    (files : list string) (w : World) (r : RepoDir) (staged : list IndexEntry) :
  repo w = Some r ->
  index r = Some staged ->
  forallb tame_path files = true ->
  In d files ->
  worktree w !! path_join (self_path self) d = Some Dir ->
  ignores self w d = false ->
  (add self files w).1 = Raise IsADirectoryError
  /\ staged_of (add self files w).2 = Some staged.
Proof.
  intros Hr Hi _ Hin Hd Hg. unfold add.
  rewrite (bind_Return _ _ w w staged); [|mrun; reflexivity].
  pose proof (add_loop_only_objects self files staged w r Hr) as F.
  pose proof (add_loop_directory self d files staged w r Hr Hin Hd Hg) as R.
  destruct (add_loop self files staged w) as [out w1] eqn:E. cbn [fst snd] in *.
  subst out. rewrite (bind_Raise _ _ w w1 _ E). cbn [fst snd].
  split; [reflexivity|].
  destruct F as (_ & _ & r0 & r1 & E0 & E1 & _ & _ & H3 & _ & _).
  unfold staged_of. rewrite E1. cbn. congruence.
Qed.

(** ** commit *)

(** X9.  A commit that goes through, on a current branch that is a plain
    name, advances that branch and no other: its ref holds the digest of
    the message (64 hexadecimal digits, as [hashlib] gives), every other
    branch keeps its tip, HEAD is untouched, the index is emptied, and the
    record stored has the previous tip as parent and the staged entries as
    files. *)
Theorem commit_advances_current_branch_only (self : Repository)
    (message : string) (w : World) (r : RepoDir) (e : IndexEntry)
    (staged : list IndexEntry) (old : object_file) :
  repo w = Some r ->
  plain_name (current_branch self) = true ->
  index r = Some (e :: staged) ->
  objects r !! sha256_hexdigest (PyStr.encode message) = Some old ->
  is_hexdigest (sha256_hexdigest (PyStr.encode message)) = true ->
  exists (w' : World) (r' : RepoDir),
    commit self message w = (Return tt, w')
    /\ repo w' = Some r'
    /\ heads r' !! current_branch self = Some (sha256_hexdigest (PyStr.encode message))
    /\ (forall other, other <> current_branch self ->
                      heads r' !! other = heads r !! other)
    /\ HEAD r' = HEAD r
    /\ index r' = Some []
    /\ commit_of w' (sha256_hexdigest (PyStr.encode message))
       = Some {| c_message := message; c_timestamp := ctime old;
                 c_parent := tip_of w (current_branch self);
                 c_files := e :: staged |}.
Proof.
  intros Hr _ Hi Ho _.
  exists (committed self message w r (e :: staged) old).
  eexists. split; [apply (commit_over_object self message w r e staged old Hr Hi Ho)|].
  split; [reflexivity|]. cbn.
  split; [apply lookup_insert_eq|].
  split; [intros other Hne; apply lookup_insert_ne; congruence|].
  split; [reflexivity|]. split; [reflexivity|].
  unfold commit_of, object_of, committed. cbn.
  rewrite lookup_insert_eq. reflexivity.
Qed.

(** X10.  With something staged and no object file at
    [objects/<sha256(message)>], [commit] raises [AttributeError] (it
    reaches [os.time()], which the module [os] does not have) before it
    writes anything: the disk is as it was and nothing is printed. *)
Theorem commit_raises_without_object (self : Repository) (message : string)
    (w : World) (r : RepoDir) (e : IndexEntry) (staged : list IndexEntry) :
  repo w = Some r ->
  index r = Some (e :: staged) ->
  objects r !! sha256_hexdigest (PyStr.encode message) = None ->
  commit self message w = (Raise AttributeError, w).
Proof. exact (commit_without_object self message w r e staged). Qed.

(** ** log *)

Lemma log_loop_along_history (w : World) (d : string)
    (visited : list (string * commit_data)) (last : option string) :
  history w d visited last ->
  forall (fuel : nat) (w' : World),
    repo w' = repo w ->
    log_loop (length visited + fuel) (Some d) w'
    = log_loop fuel last (set_stdout (stdout w' ++ walk_lines visited) w').
Proof.
  intros Hh.
  induction Hh as [d c Ht Hc | d q c rest last Ht Hc Hq Hrest IH];
    intros fuel w' Hr; cbn [length walk_lines Nat.add].
  - rewrite (log_loop_commit _ d c w' Ht)
      by (rewrite (commit_of_same_repo w w' d Hr); exact Hc).
    rewrite List.app_nil_r. reflexivity.
  - rewrite (log_loop_commit _ d c w' Ht)
      by (rewrite (commit_of_same_repo w w' d Hr); exact Hc).
    rewrite Hq.
    rewrite (IH fuel (set_stdout (stdout w' ++ log_lines d c) w')) by exact Hr.
    cbn [set_stdout stdout clock worktree repo].
    rewrite <- List.app_assoc. reflexivity.
Qed.

(** X11.  On a history that ends at a root (a commit whose parent is the
    empty string or [None]) [log] prints every commit once, from the tip
    back to the root, and returns: as many passes as there are commits are
    enough. *)
Theorem log_prints_history_to_root (fuel : nat) (self : Repository)
    (d : string) (visited : list (string * commit_data)) (last : option string)
    (w : World) :
  tip_of w (current_branch self) = Some d ->
  history w d visited last ->
  PyStr.truthy_opt last = false ->
  log (length visited + fuel) self w
  = (Return tt, set_stdout (stdout w ++ walk_lines visited) w).
Proof.
  intros Htip Hh Hl. unfold log.
  rewrite (bind_Return _ _ w w _ (get_last_commit_tip self w)), Htip.
  rewrite (log_loop_along_history w d visited last Hh fuel w eq_refl).
  apply log_loop_end, Hl.
Qed.

(** ** diff *)

Lemma files_dict_keys (c : commit_data) (path : string) :
  path ∈ keys (files_dict (c_files c)) <-> is_Some (digest_at c path).
Proof. apply elem_of_keys. Qed.

(** The lines of [diff], one by one. *)
Lemma elem_of_diff_lines (a b : commit_data) (line : printed) :
  In line (diff_lines a b)
  <-> exists path,
        (is_Some (digest_at a path) \/ is_Some (digest_at b path))
        /\ diff_line (files_dict (c_files a)) (files_dict (c_files b)) path = Some line.
Proof.
  unfold diff_lines. rewrite <- list_elem_of_In, list_elem_of_omap.
  split; intros (path & Hp & Hl); exists path; (split; [|exact Hl]).
  - rewrite elem_of_elements, elem_of_list_to_set, elem_of_app, !files_dict_keys in Hp.
    exact Hp.
  - rewrite elem_of_elements, elem_of_list_to_set, elem_of_app, !files_dict_keys.
    exact Hp.
Qed.

Lemma added_in_diff_lines (a b : commit_data) (path : string) :
  In (PDiffAdded path) (diff_lines a b)
  <-> digest_at a path = None /\ is_Some (digest_at b path).
Proof.
  rewrite elem_of_diff_lines. unfold diff_line.
  fold (digest_at a path) (digest_at b path). split.
  - intros (q & Hq & Hl). fold (digest_at a q) (digest_at b q) in Hl.
    destruct (digest_at a q) as [h1|] eqn:Ea, (digest_at b q) as [h2|] eqn:Eb;
      try destruct (negb (h1 =? h2)%string); try discriminate;
      injection Hl as ->; rewrite ?Ea, ?Eb;
      destruct Hq as [[? [=]]|[? [=]]]; eauto.
  - intros [Ea Eb]. exists path. split; [auto|].
    fold (digest_at a path) (digest_at b path). rewrite Ea. reflexivity.
Qed.

Lemma removed_in_diff_lines (a b : commit_data) (path : string) :
  In (PDiffRemoved path) (diff_lines a b)
  <-> is_Some (digest_at a path) /\ digest_at b path = None.
Proof.
  rewrite elem_of_diff_lines. unfold diff_line. split.
  - intros (q & Hq & Hl). fold (digest_at a q) (digest_at b q) in Hl.
    destruct (digest_at a q) as [h1|] eqn:Ea, (digest_at b q) as [h2|] eqn:Eb;
      try destruct (negb (h1 =? h2)%string); try discriminate;
      injection Hl as ->; rewrite ?Ea, ?Eb; eauto.
  - intros [[h Ea] Eb]. exists path. split; [rewrite Ea; eauto|].
    fold (digest_at a path) (digest_at b path). rewrite Ea, Eb. reflexivity.
Qed.

Lemma modified_in_diff_lines (a b : commit_data) (path : string) :
  In (PDiffModified path) (diff_lines a b)
  <-> exists h1 h2, digest_at a path = Some h1 /\ digest_at b path = Some h2
                    /\ h1 <> h2.
Proof.
  rewrite elem_of_diff_lines. unfold diff_line. split.
  - intros (q & Hq & Hl). fold (digest_at a q) (digest_at b q) in Hl.
    destruct (digest_at a q) as [h1|] eqn:Ea, (digest_at b q) as [h2|] eqn:Eb;
      try destruct (String.eqb_spec h1 h2); try discriminate;
      injection Hl as ->; rewrite ?Ea, ?Eb; eauto.
  - intros (h1 & h2 & Ea & Eb & Hne). exists path. split; [rewrite Ea; eauto|].
    fold (digest_at a path) (digest_at b path). rewrite Ea, Eb.
    destruct (String.eqb_spec h1 h2); [contradiction|reflexivity].
Qed.

(** X12.  [diff] is symmetric: the paths that [diff(b1, b2)] prints as
    added are those that [diff(b2, b1)] prints as removed, and the other
    way round; both print the same paths as modified. *)
Theorem diff_is_symmetric (self : Repository) (branch1 branch2 d1 d2 : string)
    (a b : commit_data) (w : World) :
  tip_of w branch1 = Some d1 -> PyStr.truthy d1 = true -> commit_of w d1 = Some a ->
  tip_of w branch2 = Some d2 -> PyStr.truthy d2 = true -> commit_of w d2 = Some b ->
  exists lines12 lines21 : list printed,
    diff self branch1 branch2 w
    = (Return tt, set_stdout (stdout w ++ PDiffHeader branch1 branch2 :: lines12) w)
    /\ diff self branch2 branch1 w
       = (Return tt, set_stdout (stdout w ++ PDiffHeader branch2 branch1 :: lines21) w)
    /\ forall path,
         (In (PDiffAdded path) lines12 <-> In (PDiffRemoved path) lines21)
         /\ (In (PDiffRemoved path) lines12 <-> In (PDiffAdded path) lines21)
         /\ (In (PDiffModified path) lines12 <-> In (PDiffModified path) lines21).
Proof.
  intros T1 H1 C1 T2 H2 C2. exists (diff_lines a b), (diff_lines b a).
  split; [apply (diff_of_commits self branch1 branch2 d1 d2 a b w); assumption|].
  split; [apply (diff_of_commits self branch2 branch1 d2 d1 b a w); assumption|].
  intros path.
  rewrite !added_in_diff_lines, !removed_in_diff_lines, !modified_in_diff_lines.
  split; [tauto|]. split; [tauto|].
  split; intros (h1 & h2 & E1 & E2 & Hne); exists h2, h1; auto.
Qed.

(** X13.  [diff] between two branches that stand at the same commit
    prints its header and nothing else. *)
Theorem diff_of_same_commit_is_empty (self : Repository)
    (branch1 branch2 d : string) (a : commit_data) (w : World) :
  tip_of w branch1 = Some d ->
  tip_of w branch2 = Some d ->
  PyStr.truthy d = true ->
  commit_of w d = Some a ->
  diff self branch1 branch2 w
  = (Return tt, set_stdout (stdout w ++ [PDiffHeader branch1 branch2]) w).
Proof.
  intros T1 T2 H C.
  rewrite (diff_of_commits self branch1 branch2 d d a a w) by assumption.
  assert (E : diff_lines a a = []); [|rewrite E; reflexivity].
  destruct (diff_lines a a) as [|line l] eqn:E; [reflexivity|].
  assert (Hin : In line (diff_lines a a)) by (rewrite E; left; reflexivity).
  apply elem_of_diff_lines in Hin as (path & Hp & Hl).
  unfold diff_line in Hl. fold (digest_at a path) in Hl.
  destruct (digest_at a path) as [h|].
  - rewrite String.eqb_refl in Hl. discriminate.
  - destruct Hp as [[? [=]]|[? [=]]].
Qed.

(** X14.  [diff] does not guard its reads the way [log] does: when the
    first tip is a plain file name under which no object is stored, it
    raises [FileNotFoundError], having printed nothing. *)
Theorem diff_raises_on_missing_object (self : Repository)
    (branch1 branch2 d1 d2 : string) (w : World) :
  tip_of w branch1 = Some d1 -> plain_name d1 = true ->
  tip_of w branch2 = Some d2 -> PyStr.truthy d2 = true ->
  object_of w d1 = None ->
  diff self branch1 branch2 w = (Raise FileNotFoundError, w).
Proof.
  intros T1 P1 T2 H2 Ho.
  assert (H1 : PyStr.truthy d1 = true).
  { unfold plain_name in P1. repeat apply andb_prop in P1 as [P1 _]. exact P1. }
  unfold diff.
  rewrite (bind_Return _ _ w w _ (get_branch_last_commit_tip self branch1 w)).
  rewrite (bind_Return _ _ w w _ (get_branch_last_commit_tip self branch2 w)).
  rewrite T1, T2. cbn [PyStr.truthy_opt default]. rewrite H1, H2. cbn [negb orb].
  rewrite (bind_Raise _ _ w w _ (load_commit_missing w d1 Ho)). reflexivity.
Qed.

(** ** What no script undoes *)

Lemma refs_kept_refl (w : World) : refs_kept w w.
Proof. split; [reflexivity|]. intros r Hr. exists r. auto. Qed.

Lemma refs_kept_print (w : World) (o : list printed) : refs_kept w (set_stdout o w).
Proof. split; [reflexivity|]. intros r Hr. exists r. auto. Qed.

Lemma keeps_refl (w : World) : keeps w w.
Proof. split; [auto|]. split; [auto|reflexivity]. Qed.

Lemma keeps_trans (w1 w2 w3 : World) : keeps w1 w2 -> keeps w2 w3 -> keeps w1 w3.
Proof.
  intros (O1 & T1 & W1) (O2 & T2 & W2).
  split; [auto|]. split; [auto|congruence].
Qed.

Lemma is_Some_tip_of (w : World) (r : RepoDir) (n : string) :
  repo w = Some r -> is_Some (tip_of w n) <-> is_Some (heads r !! n).
Proof.
  intros Hr. unfold tip_of. rewrite Hr. cbn.
  destruct (heads r !! n); cbn; split; intros [? ?]; eauto; discriminate.
Qed.

Lemma keeps_of_heads_objects (w w' : World) (r r' : RepoDir) :
  repo w = Some r -> repo w' = Some r' ->
  worktree w' = worktree w ->
  (forall n, is_Some (heads r !! n) -> is_Some (heads r' !! n)) ->
  (forall d, is_Some (objects r !! d) -> is_Some (objects r' !! d)) ->
  keeps w w'.
Proof.
  intros Hr Hr' Hw Hh Ho. split; [|split; [|exact Hw]].
  - intros d. unfold object_of. rewrite Hr, Hr'. cbn. apply Ho.
  - intros n. rewrite (is_Some_tip_of w r n Hr), (is_Some_tip_of w' r' n Hr'). apply Hh.
Qed.

Lemma keeps_of_no_repo (w w' : World) :
  repo w = None -> worktree w' = worktree w -> keeps w w'.
Proof.
  intros Hr Hw. split; [|split; [|exact Hw]].
  - intros d. unfold object_of. rewrite Hr. intros [? [=]].
  - intros n. unfold tip_of. rewrite Hr. intros [? [=]].
Qed.

Lemma refs_kept_keeps (w w' : World) : refs_kept w w' -> keeps w w'.
Proof.
  intros [Hw H]. destruct (repo w) as [r|] eqn:Hr.
  - destruct (H r eq_refl) as (r' & Hr' & _ & Hh & Ho).
    apply (keeps_of_heads_objects w w' r r'); assumption.
  - apply keeps_of_no_repo; assumption.
Qed.

Lemma refs_kept_on_branch (w w' : World) (name : string) :
  refs_kept w w' -> on_branch name w -> on_branch name w'.
Proof.
  intros [_ H] (r & Hr & HH & Hn).
  destruct (H r Hr) as (r' & Hr' & HH' & Hh & _).
  exists r'. split; [exact Hr'|]. split; [congruence|auto].
Qed.

Lemma add_refs_kept (self : Repository) (files : list string) (w : World) :
  refs_kept w (add self files w).2.
Proof.
  destruct (repo w) as [r|] eqn:Hr.
  - destruct (add_frame self files w r Hr) as (r' & Hr' & HH & Hh & _ & Ho & Hw).
    split; [exact Hw|]. intros r0 E. rewrite Hr in E. injection E as <-.
    exists r'. rewrite Hh. auto.
  - assert (E : add self files w = (Raise FileNotFoundError, w)).
    { unfold add. mrun. reflexivity. }
    rewrite E. split; [reflexivity|]. cbn. intros r0 E0. congruence.
Qed.

Lemma commit_refs_kept (self : Repository) (message : string) (w : World) :
  refs_kept w (commit self message w).2.
Proof.
  destruct (repo w) as [r|] eqn:Hr.
  - destruct (index r) as [[|e staged]|] eqn:Hi.
    + assert (E : commit self message w
                  = (Return tt, set_stdout (stdout w ++ [PNoChanges]) w)).
      { unfold commit. mrun. reflexivity. }
      rewrite E. apply refs_kept_print.
    + destruct (objects r !! sha256_hexdigest (PyStr.encode message)) as [old|] eqn:Ho.
      * rewrite (commit_over_object self message w r e staged old Hr Hi Ho).
        split; [reflexivity|]. intros r0 E. rewrite Hr in E. injection E as <-.
        eexists. split; [reflexivity|]. cbn. split; [reflexivity|]. split.
        -- intros n Hn. rewrite lookup_insert_is_Some.
           destruct (decide (current_branch self = n)); auto.
        -- intros d Hd. rewrite lookup_insert_is_Some.
           destruct (decide (sha256_hexdigest (PyStr.encode message) = d)); auto.
      * rewrite (commit_without_object self message w r e staged Hr Hi Ho).
        apply refs_kept_refl.
    + assert (E : commit self message w = (Raise FileNotFoundError, w)).
      { unfold commit. mrun. reflexivity. }
      rewrite E. apply refs_kept_refl.
  - assert (E : commit self message w = (Raise FileNotFoundError, w)).
    { unfold commit. mrun. reflexivity. }
    rewrite E. apply refs_kept_refl.
Qed.

Lemma branch_refs_kept (self : Repository) (name : string) (w : World) :
  refs_kept w (branch self name w).2.
Proof.
  unfold branch.
  rewrite (bind_Return _ _ w w _ (get_last_commit_tip self w)).
  destruct (repo w) as [r|] eqn:Hr.
  - mrun. split; [reflexivity|]. cbn. intros r0 E.
    assert (r0 = r) as -> by congruence.
    eexists. split; [reflexivity|]. cbn. split; [reflexivity|]. split; [|auto].
    intros n Hn. rewrite lookup_insert_is_Some. destruct (decide (name = n)); auto.
  - mrun. apply refs_kept_refl.
Qed.

(** What [checkout] does, in both cases. *)
Lemma checkout_cases (self : Repository) (name : string) (w : World) :
  (tip_of w name = None
   /\ checkout self name w
      = (Return self, set_stdout (stdout w ++ [PBranchNotExist name]) w))
  \/ (exists r, repo w = Some r /\ is_Some (heads r !! name)
       /\ checkout self name w
          = (Return {| self_path := self_path self; repo_dir := repo_dir self;
                       current_branch := name |},
             set_stdout (stdout w ++ [PSwitched name])
               (set_repo (Some (set_HEAD (PyStr.universal_newlines
                                            ("ref: refs/heads/" ++ name)) r)) w))).
Proof.
  unfold tip_of, checkout. unfold_M.
  destruct (repo w) as [r|] eqn:Hr; [|left; split; reflexivity]. cbn.
  destruct (heads r !! name) as [text|] eqn:E.
  - right. exists r. split; [reflexivity|]. split; [eauto|].
    rewrite is_Some_Some_true. cbn [negb]. rewrite Hr. reflexivity.
  - left. split; reflexivity.
Qed.

Lemma set_clock_refs_kept (t : Z) (w : World) : refs_kept w (set_clock t w).
Proof. split; [reflexivity|]. intros r Hr. exists r. auto. Qed.

(** One call of a script: nothing is lost; and when its arguments are
    plain, HEAD goes on naming the branch the object is on, and that
    branch goes on being a plain name. *)
Lemma run_op_invariants (self : Repository) (o : op) (w : World) :
  keeps w (run_op self o w).2
  /\ (run_op self o w).1 <> OutOfFuel
  /\ (tame_op o = true ->
      on_branch (current_branch self) w ->
      on_branch (current_branch (self_after self (run_op self o w).1))
                (run_op self o w).2)
  /\ (tame_op o = true ->
      plain_name (current_branch self) = true ->
      plain_name (current_branch (self_after self (run_op self o w).1)) = true).
Proof.
  destruct o as [files|message|name|name]; cbn [run_op].
  - pose proof (add_refs_kept self files w) as F.
    assert (N : (add self files w).1 <> OutOfFuel).
    { unfold add. unfold_M.
      destruct (repo w) as [r|] eqn:Hr; [|discriminate].
      destruct (index r) as [staged|]; [|discriminate].
      pose proof (add_loop_ends self files staged w r Hr) as N.
      destruct (add_loop self files staged w) as [[?|?|] w1];
        cbn in *; try congruence.
      destruct (repo w1); discriminate. }
    destruct (add self files w) as [[[]|e|] w'] eqn:E;
      unfold mbind, M_bind; rewrite E; cbn [fst snd mret M_ret self_after] in *;
      [| |contradiction];
      (split; [apply refs_kept_keeps, F|]); (split; [discriminate|]);
      (split; [intros _ Hb; apply (refs_kept_on_branch w w' _ F Hb)|]);
      intros _ Hp; exact Hp.
  - pose proof (commit_refs_kept self message w) as F.
    assert (N : (commit self message w).1 <> OutOfFuel).
    { destruct (repo w) as [r|] eqn:Hr;
        [destruct (index r) as [[|e staged]|] eqn:Hi;
         [|destruct (objects r !! sha256_hexdigest (PyStr.encode message)) as [old|] eqn:Ho|]|].
      - unfold commit. mrun. discriminate.
      - rewrite (commit_over_object self message w r e staged old Hr Hi Ho). discriminate.
      - rewrite (commit_without_object self message w r e staged Hr Hi Ho). discriminate.
      - unfold commit. mrun. discriminate.
      - unfold commit. mrun. discriminate. }
    destruct (commit self message w) as [[[]|e|] w'] eqn:E;
      unfold mbind, M_bind; rewrite E; cbn [fst snd mret M_ret self_after] in *;
      [| |contradiction];
      (split; [apply refs_kept_keeps, F|]); (split; [discriminate|]);
      (split; [intros _ Hb; apply (refs_kept_on_branch w w' _ F Hb)|]);
      intros _ Hp; exact Hp.
  - pose proof (branch_refs_kept self name w) as F.
    assert (N : (branch self name w).1 <> OutOfFuel).
    { unfold branch.
      rewrite (bind_Return _ _ w w _ (get_last_commit_tip self w)).
      destruct (repo w) eqn:Hr; mrun; discriminate. }
    destruct (branch self name w) as [[[]|e|] w'] eqn:E;
      unfold mbind, M_bind; rewrite E; cbn [fst snd mret M_ret self_after] in *;
      [| |contradiction];
      (split; [apply refs_kept_keeps, F|]); (split; [discriminate|]);
      (split; [intros _ Hb; apply (refs_kept_on_branch w w' _ F Hb)|]);
      intros _ Hp; exact Hp.
  - destruct (checkout_cases self name w) as [[Ht E]|(r & Hr & Hn & E)];
      rewrite E; cbn [fst snd self_after].
    + split; [apply refs_kept_keeps, refs_kept_print|]. split; [discriminate|].
      split; [|intros _ Hp; exact Hp].
      intros _ Hb. apply (refs_kept_on_branch w _ _ (refs_kept_print w _) Hb).
    + split.
      { eapply (keeps_of_heads_objects w _ r); [exact Hr|reflexivity|reflexivity| |];
          cbn; auto. }
      split; [discriminate|].
      split; [|intros [Hp _]%andb_prop _; exact Hp].
      intros [_ Hc]%andb_prop _. rewrite (HEAD_reads_back name Hc). cbn.
      eexists. split; [reflexivity|]. cbn. split; [reflexivity|exact Hn].
Qed.

Lemma run_ops_cons (self : Repository) (t : Z) (o : op)
    (rest : list (Z * op)) (w : World) :
  run_ops self ((t, o) :: rest) w
  = match run_op self o (set_clock t w) with
    | (Return self', w') => run_ops self' rest w'
    | (Raise e, w') => (Raise e, w')
    | (OutOfFuel, w') => (OutOfFuel, w')
    end.
Proof. reflexivity. Qed.

(** X15.  Once HEAD names the branch the object is on, a plain name that
    has a ref file, no script of [add], [commit], [branch] and [checkout]
    with plain arguments breaks this: after the script (or after the call
    that raised) HEAD still names a branch that has a ref file, and it is
    the current branch of the object the script returns. *)
Theorem scripts_keep_HEAD_on_a_branch (script : list (Z * op)) :
  tame_script script = true ->
  forall (self : Repository) (w : World),
    plain_name (current_branch self) = true ->
    on_branch (current_branch self) w ->
    exists name : string,
      on_branch name (run_ops self script w).2
      /\ forall self', (run_ops self script w).1 = Return self' ->
                       current_branch self' = name.
Proof.
  induction script as [|[t o] rest IH]; intros Ht self w Hp Hb.
  - exists (current_branch self). split; [exact Hb|]. intros self' [= <-]. reflexivity.
  - cbn [tame_script forallb snd] in Ht. apply andb_prop in Ht as [Ho Hrest].
    rewrite run_ops_cons.
    destruct (run_op_invariants self o (set_clock t w)) as (_ & N & H & P).
    specialize (H Ho (refs_kept_on_branch w _ _ (set_clock_refs_kept t w) Hb)).
    specialize (P Ho Hp).
    destruct (run_op self o (set_clock t w)) as [[self1|e|] w1];
      cbn [fst snd self_after] in *; [| |contradiction].
    + apply (IH Hrest self1 w1 P H).
    + exists (current_branch self). split; [exact H|]. discriminate.
Qed.

(** X16.  No script of [add], [commit], [branch] and [checkout] with
    plain arguments, run from an object whose current branch is a plain
    name, removes anything: every object file and every ref file that was
    there is still there afterwards, the working tree is untouched, and
    the script ends (it returns or it raises). *)
Theorem scripts_lose_nothing (script : list (Z * op)) :
  tame_script script = true ->
  forall (self : Repository) (w : World),
    plain_name (current_branch self) = true ->
    keeps w (run_ops self script w).2
    /\ (run_ops self script w).1 <> OutOfFuel.
Proof.
  induction script as [|[t o] rest IH]; intros Ht self w Hp.
  - split; [apply keeps_refl|discriminate].
  - cbn [tame_script forallb snd] in Ht. apply andb_prop in Ht as [Ho Hrest].
    rewrite run_ops_cons.
    destruct (run_op_invariants self o (set_clock t w)) as (K & N & _ & P).
    specialize (P Ho Hp).
    assert (K0 : keeps w (set_clock t w))
      by apply refs_kept_keeps, set_clock_refs_kept.
    destruct (run_op self o (set_clock t w)) as [[self1|e|] w1];
      cbn [fst snd self_after] in *; [| |contradiction].
    + destruct (IH Hrest self1 w1 P) as [K1 N1]. split; [|exact N1].
      eapply keeps_trans; [exact K0|]. eapply keeps_trans; [exact K|exact K1].
    + split; [|discriminate]. eapply keeps_trans; [exact K0|exact K].
Qed.

End MoreProperties.

(** ** The further theorems at work *)

Import Cases.

(** X1 on the working tree without a repository. *)
Lemma init_creates_witness :
  __init__ (lib := lib) "proj" w0 = (Return (self_on "main"), fresh).
Proof.
  exact (proj1 (init_creates_repository_on_main (lib := lib) "proj" w0 eq_refl)).
Defined.

(** X2: no branch [ghost] in the repository just initialised. *)
Lemma checkout_unknown_witness :
  checkout (self_on "main") "ghost" fresh
  = (Return (self_on "main"), set_stdout [PBranchNotExist "ghost"] fresh).
Proof.
  apply (checkout_unknown_branch (self_on "main") "ghost" fresh).
  - reflexivity.
  - vm_compute. reflexivity.
Defined.

(** X3: [checkout('main')], then the constructor again. *)
Lemma checkout_read_back_witness :
  on_branch "main" (checkout (self_on "main") "main" dangling).2
  /\ __init__ (lib := lib) "proj" (checkout (self_on "main") "main" dangling).2
     = (Return (self_on "main"), (checkout (self_on "main") "main" dangling).2).
Proof.
  exact (proj2 (checkout_is_read_back (lib := lib) (self_on "main") "main" h_m "proj"
                  dangling dangling_repo eq_refl eq_refl eq_refl eq_refl)).
Defined.

(** X4: [dev] created from [main] and entered. *)
Lemma new_branch_witness :
  exists (w1 w2 : World) (self' : Repository),
    branch (self_on "main") "dev" dangling = (Return tt, w1)
    /\ checkout (self_on "main") "dev" w1 = (Return self', w2)
    /\ current_branch self' = "dev"
    /\ _get_last_commit self' w2 = (Return (Some h_m), w2).
Proof.
  destruct (new_branch_starts_at_current_tip (self_on "main") "dev" dangling
              dangling_repo eq_refl eq_refl eq_refl) as (w1 & w2 & self' & E1 & E2 & Hc & Ht & _).
  exists w1, w2, self'. auto.
Defined.

(** X5: [add] of a file and of a missing one. *)
Lemma add_frame_witness :
  exists r' : RepoDir,
    repo (add (lib := lib) (self_on "main") ["g.txt"; "zz"] fresh).2 = Some r'
    /\ HEAD r' = HEAD fresh_repo /\ heads r' = heads fresh_repo.
Proof.
  destruct (add_writes_objects_and_index_only (lib := lib) (self_on "main")
              ["g.txt"; "zz"] fresh fresh_repo eq_refl)
    as (r' & E & H1 & H2 & _).
  exists r'. auto.
Defined.

(** X6: two files that do not exist. *)
Lemma add_skips_witness :
  add (lib := lib) (self_on "main") ["zz"; "yy"] fresh
  = (Return tt,
     set_stdout [PErrorNotExist "zz"; PErrorNotExist "yy"; PAdded 2] fresh).
Proof.
  apply (add_skips_missing_and_ignored (lib := lib) (self_on "main") ["zz"; "yy"]
           fresh fresh_repo [] eq_refl eq_refl eq_refl).
  intros f [<-|[<-|[]]]; left; vm_compute; reflexivity.
Defined.

(** X7: [note.txt] staged again, with [g.txt]. *)
Lemma add_unique_witness :
  exists staged' : list IndexEntry,
    staged_of (add (lib := lib) (self_on "main") ["note.txt"; "g.txt"] staged).2
    = Some staged'
    /\ NoDup (index_paths staged').
Proof.
  apply (add_keeps_index_paths_unique (lib := lib) (self_on "main")
           ["note.txt"; "g.txt"] staged staged_repo
           [ {| entry_path := "note.txt"; entry_hash := h_m |} ] eq_refl eq_refl).
  apply NoDup_singleton.
Defined.

(** X8: [g.txt], then the directory [src]. *)
Lemma add_directory_witness :
  (add (lib := lib) (self_on "main") ["g.txt"; "src"] with_directory).1
  = Raise IsADirectoryError
  /\ staged_of (add (lib := lib) (self_on "main") ["g.txt"; "src"] with_directory).2
     = Some [].
Proof.
  apply (add_of_directory_raises (lib := lib) (self_on "main") "src" ["g.txt"; "src"]
           with_directory initial_repo [] eq_refl eq_refl eq_refl).
  - right; left; reflexivity.
  - vm_compute. reflexivity.
  - vm_compute. reflexivity.
Defined.

(** X9: the first commit on [main]. *)
Lemma commit_advances_witness :
  exists (w' : World) (r' : RepoDir),
    commit (lib := lib) (self_on "main") "m" staged = (Return tt, w')
    /\ repo w' = Some r'
    /\ heads r' !! "main" = Some h_m
    /\ index r' = Some [].
Proof.
  destruct (commit_advances_current_branch_only (lib := lib) (self_on "main") "m"
              staged staged_repo
              {| entry_path := "note.txt"; entry_hash := h_m |} []
              {| ctime := 1000; data := Blob (PyStr.encode "m") |})
    as (w' & r' & E & Hr & Hh & _ & _ & Hi & _);
    [reflexivity | reflexivity | reflexivity | vm_compute; reflexivity
    | vm_compute; reflexivity |].
  exists w', r'.
  replace h_m with (sha256_hexdigest (PyLib := lib) (PyStr.encode "m"))
    by (vm_compute; reflexivity).
  auto.
Defined.

(** X10: no object sits at the digest of the message [first]. *)
Lemma commit_without_object_witness :
  commit (lib := lib) (self_on "main") "first" staged = (Raise AttributeError, staged).
Proof.
  apply (commit_raises_without_object (lib := lib) (self_on "main") "first" staged staged_repo
           {| entry_path := "note.txt"; entry_hash := h_m |} []);
    [reflexivity | reflexivity | vm_compute; reflexivity].
Defined.

(** X11: the history of one commit. *)
Lemma log_to_root_witness :
  log 1 (self_on "main") (after one_commit)
  = (Return tt,
     set_stdout (stdout (after one_commit) ++ walk_lines [(h_m, first_commit)])
                (after one_commit)).
Proof.
  apply (log_prints_history_to_root 0 (self_on "main") h_m [(h_m, first_commit)]
           (Some "") (after one_commit)).
  - vm_compute. reflexivity.
  - apply (history_last (after one_commit) h_m first_commit); vm_compute; reflexivity.
  - reflexivity.
Defined.

(** X12 between [main] and [dev] after they diverged. *)
Lemma diff_symmetric_witness :
  exists lines12 lines21 : list printed,
    diff (self_on "dev") "main" "dev" (after diverged)
    = (Return tt,
       set_stdout (stdout (after diverged) ++ PDiffHeader "main" "dev" :: lines12)
                  (after diverged))
    /\ diff (self_on "dev") "dev" "main" (after diverged)
       = (Return tt,
          set_stdout (stdout (after diverged) ++ PDiffHeader "dev" "main" :: lines21)
                     (after diverged))
    /\ (In (PDiffAdded "g.txt") lines12 <-> In (PDiffRemoved "g.txt") lines21).
Proof.
  destruct (diff_is_symmetric (self_on "dev") "main" "dev" h_m h_hello
              first_commit dev_commit (after diverged))
    as (l12 & l21 & E1 & E2 & H); try (vm_compute; reflexivity).
  exists l12, l21. split; [exact E1|]. split; [exact E2|]. apply (H "g.txt").
Defined.

(** X13: [main] against itself. *)
Lemma diff_same_commit_witness :
  diff (self_on "main") "main" "main" (after one_commit)
  = (Return tt,
     set_stdout (stdout (after one_commit) ++ [PDiffHeader "main" "main"])
                (after one_commit)).
Proof.
  apply (diff_of_same_commit_is_empty (self_on "main") "main" "main" h_m first_commit
           (after one_commit)); vm_compute; reflexivity.
Defined.

(** X14: the ref of [dev] names an object that is not stored. *)
Lemma diff_missing_object_witness :
  diff (self_on "main") "dev" "main" broken_ref = (Raise FileNotFoundError, broken_ref).
Proof.
  apply (diff_raises_on_missing_object (self_on "main") "dev" "main" "00ff" h_m
           broken_ref); vm_compute; reflexivity.
Defined.

(** X15 on a script that creates a branch and moves to it. *)
Lemma scripts_keep_HEAD_witness :
  exists name : string,
    on_branch name (run_ops (lib := lib) (self_on "main") two_branches fresh).2
    /\ forall self',
         (run_ops (lib := lib) (self_on "main") two_branches fresh).1 = Return self' ->
         current_branch self' = name.
Proof.
  apply (scripts_keep_HEAD_on_a_branch (lib := lib) two_branches eq_refl
           (self_on "main") fresh eq_refl).
  exists fresh_repo. split; [reflexivity|]. split; [reflexivity|].
  exists "". reflexivity.
Defined.

(** X16 on the script that makes [main] and [dev] diverge. *)
Lemma scripts_lose_nothing_witness :
  keeps fresh (run_ops (lib := lib) (self_on "main") diverged fresh).2
  /\ (run_ops (lib := lib) (self_on "main") diverged fresh).1 <> OutOfFuel.
Proof.
  exact (scripts_lose_nothing (lib := lib) diverged eq_refl (self_on "main") fresh
           eq_refl).
Defined.
